(** * Movement tracker: session state machine and motion analysis

    A shallow embedding of the [MovementTracker] React component (the
    Bluetooth version with squat phase detection) and proofs about its
    calibration, live deviation, squat phase detection, final statistics and
    debug log.

    Modelling conventions.
    - A JavaScript [number] is a real number: [+], [-], [*], [/],
      [Math.sqrt], [Math.abs], [Math.max], [Math.min] and [Math.pow(_, 2)]
      are the operations of [R]; the rounding of IEEE doubles is abstracted.
    - The component state (the [useState] cells and [measurementCountRef])
      is a record that every handler takes and returns; the handlers run one
      at a time.  [modeRef] is synced to [mode] by an effect after each
      render, so the two are one field.
    - A handler is a closure of some render.  The buttons call the handlers
      of the latest render; the two Bluetooth listeners are the handlers of
      the render in which [connectBLE] was called, since [addEventListener]
      is called once and nothing registers a later closure.  Each handler
      therefore takes the render it belongs to.
    - [new Date().toISOString()] is an input of each handler (the clock
      reading of that invocation).
    - The Bluetooth objects ([device], [characteristicRef]) and [startTime],
      which is written and never read, are left out of the state. *)

From Stdlib Require Import Reals Lra Lia List String Ascii ZArith Bool Arith.
From Stdlib Require Import DecimalString.
Import ListNotations.
Open Scope R_scope.

(** ** JavaScript built-ins used by the component *)

(** [a < b] and [a > b] on numbers, as booleans. *)
Definition Rltb (a b : R) : bool := if Rlt_dec a b then true else false.
Definition Rgtb (a b : R) : bool := Rltb b a.

(** [Math.pow(a, 2)]. *)
Definition Math_pow2 (a : R) : R := a ^ 2.

(** [arr.slice(-n)]: the last [n] elements, all of them when there are fewer. *)
Definition slice_last {A : Type} (n : nat) (l : list A) : list A :=
  skipn (List.length l - n) l.

(** [s.split(sep)] for a one-character separator. *)
Fixpoint str_split (sep : ascii) (s : string) : list string :=
  match s with
  | EmptyString => [EmptyString]
  | String c rest =>
      if Ascii.eqb c sep then EmptyString :: str_split sep rest
      else match str_split sep rest with
           | [] => [String c EmptyString]
           | piece :: pieces => String c piece :: pieces
           end
  end.

(** [String(n)] for a non-negative integer: its decimal digits. *)
Definition string_of_nat (n : nat) : string :=
  NilZero.string_of_uint (Nat.to_uint n).

Definition digits_of_Z (n : Z) : string :=
  NilZero.string_of_uint (N.to_uint (Z.to_N n)).

Fixpoint zeros (k : nat) : string :=
  match k with
  | O => EmptyString
  | S k' => String "0" (zeros k')
  end.

(** The digits of [toFixed] for the integer [n] and [f] decimals: the digits
    of [n] ("0" for zero), padded with zeros to [f + 1] characters, with the
    decimal point before the last [f]. *)
Definition fixed_digits (n : Z) (f : nat) : string :=
  let m := digits_of_Z n in
  if (f =? 0)%nat then m
  else
    let m := if (String.length m <=? f)%nat
             then (zeros (f + 1 - String.length m) ++ m)%string else m in
    let k := String.length m in
    (substring 0 (k - f) m ++ "." ++ substring (k - f) f m)%string.

(** [x.toFixed(f)], following Number.prototype.toFixed: the sign is split
    off and [n] is the integer nearest to [x * 10^f], the larger one on a
    tie.  From [10^21] on the built-in returns [Number::toString], whose
    exponent notation is taken as a parameter [exponent_form]. *)
Definition toFixed (exponent_form : R -> string) (x : R) (f : nat) : string :=
  let s := if Rlt_dec x 0 then "-"%string else EmptyString in
  let x := if Rlt_dec x 0 then - x else x in
  let m := if Rle_dec (10 ^ 21) x then exponent_form x
           else fixed_digits (Int_part (x * 10 ^ f + / 2)) f in
  (s ++ m)%string.

(** ** Data model *)

Inductive Mode := idle | connecting | calibrating | tracking.

Module Measurement.
Record t := mk { x : R; y : R; z : R; timestamp : R }.
End Measurement.

Module Calibration.
Record t := mk { x : R; y : R; z : R }.
End Calibration.

(** The parsed notification payload, [{x: number, y: number, z: number}]. *)
Module Data.
Record t := mk { x : R; y : R; z : R }.
End Data.

Record Stats := mkStats {
  maxDeviation : string;
  avgDeviation : string;
  duration : string;
  samples : nat
}.

Record SquatPhases := mkSquatPhases {
  bottomPoint : option R;
  maxDepth : R
}.

Definition PERFECT_ZONE_RANGE : R := 2.
Definition REQUIRED_CALIBRATION_SAMPLES : nat := 10.
Definition SAMPLE_PERIOD : R := 5 / 100.

(** What the callbacks of one render see of the state.  The handlers are
    [useCallback] closures: where one reads [calibration] or [measurements]
    it reads the value of the render that created it, while [prev => ...]
    updaters and refs reach the current state. *)
Record Render := mkRender {
  seen_calibration : Calibration.t;
  seen_measurements : list Measurement.t
}.

(** The [useState] cells and [measurementCountRef], then the renders whose
    callbacks are in use: [connectRender] for a [connectBLE] under way,
    [listenerRender] for the [handleMotionData] and [handleDisconnect] that
    [connectBLE] registered as listeners, [stopRender] for a [stopTracking]
    under way. *)
Record State := mkState {
  mode : Mode;
  calibration : Calibration.t;
  calibrationSamples : list Measurement.t;
  measurements : list Measurement.t;
  currentX : R;
  currentY : R;
  currentZ : R;
  finalStats : option Stats;
  error : option string;
  calibrationProgress : R;
  lastRawData : string;
  lastParsedData : option Data.t;
  debugMessages : list string;
  squatPhases : SquatPhases;
  measurementCountRef : nat;
  connectRender : Render;
  listenerRender : Render;
  stopRender : Render
}.

Definition setMode (v : Mode) (s : State) : State :=
  mkState v (calibration s) (calibrationSamples s) (measurements s)
    (currentX s) (currentY s) (currentZ s) (finalStats s) (error s)
    (calibrationProgress s) (lastRawData s) (lastParsedData s)
    (debugMessages s) (squatPhases s) (measurementCountRef s)
    (connectRender s) (listenerRender s) (stopRender s).
Definition setCalibration (v : Calibration.t) (s : State) : State :=
  mkState (mode s) v (calibrationSamples s) (measurements s) (currentX s)
    (currentY s) (currentZ s) (finalStats s) (error s) (calibrationProgress s)
    (lastRawData s) (lastParsedData s) (debugMessages s) (squatPhases s)
    (measurementCountRef s) (connectRender s) (listenerRender s)
    (stopRender s).
Definition setCalibrationSamples (v : list Measurement.t) (s : State) : State :=
  mkState (mode s) (calibration s) v (measurements s) (currentX s)
    (currentY s) (currentZ s) (finalStats s) (error s) (calibrationProgress s)
    (lastRawData s) (lastParsedData s) (debugMessages s) (squatPhases s)
    (measurementCountRef s) (connectRender s) (listenerRender s)
    (stopRender s).
Definition setMeasurements (v : list Measurement.t) (s : State) : State :=
  mkState (mode s) (calibration s) (calibrationSamples s) v (currentX s)
    (currentY s) (currentZ s) (finalStats s) (error s) (calibrationProgress s)
    (lastRawData s) (lastParsedData s) (debugMessages s) (squatPhases s)
    (measurementCountRef s) (connectRender s) (listenerRender s)
    (stopRender s).
Definition setCurrentX (v : R) (s : State) : State :=
  mkState (mode s) (calibration s) (calibrationSamples s) (measurements s) v
    (currentY s) (currentZ s) (finalStats s) (error s) (calibrationProgress s)
    (lastRawData s) (lastParsedData s) (debugMessages s) (squatPhases s)
    (measurementCountRef s) (connectRender s) (listenerRender s)
    (stopRender s).
Definition setCurrentY (v : R) (s : State) : State :=
  mkState (mode s) (calibration s) (calibrationSamples s) (measurements s)
    (currentX s) v (currentZ s) (finalStats s) (error s)
    (calibrationProgress s) (lastRawData s) (lastParsedData s)
    (debugMessages s) (squatPhases s) (measurementCountRef s)
    (connectRender s) (listenerRender s) (stopRender s).
Definition setCurrentZ (v : R) (s : State) : State :=
  mkState (mode s) (calibration s) (calibrationSamples s) (measurements s)
    (currentX s) (currentY s) v (finalStats s) (error s)
    (calibrationProgress s) (lastRawData s) (lastParsedData s)
    (debugMessages s) (squatPhases s) (measurementCountRef s)
    (connectRender s) (listenerRender s) (stopRender s).
Definition setFinalStats (v : option Stats) (s : State) : State :=
  mkState (mode s) (calibration s) (calibrationSamples s) (measurements s)
    (currentX s) (currentY s) (currentZ s) v (error s) (calibrationProgress s)
    (lastRawData s) (lastParsedData s) (debugMessages s) (squatPhases s)
    (measurementCountRef s) (connectRender s) (listenerRender s)
    (stopRender s).
Definition setError (v : option string) (s : State) : State :=
  mkState (mode s) (calibration s) (calibrationSamples s) (measurements s)
    (currentX s) (currentY s) (currentZ s) (finalStats s) v
    (calibrationProgress s) (lastRawData s) (lastParsedData s)
    (debugMessages s) (squatPhases s) (measurementCountRef s)
    (connectRender s) (listenerRender s) (stopRender s).
Definition setCalibrationProgress (v : R) (s : State) : State :=
  mkState (mode s) (calibration s) (calibrationSamples s) (measurements s)
    (currentX s) (currentY s) (currentZ s) (finalStats s) (error s) v
    (lastRawData s) (lastParsedData s) (debugMessages s) (squatPhases s)
    (measurementCountRef s) (connectRender s) (listenerRender s)
    (stopRender s).
Definition setLastRawData (v : string) (s : State) : State :=
  mkState (mode s) (calibration s) (calibrationSamples s) (measurements s)
    (currentX s) (currentY s) (currentZ s) (finalStats s) (error s)
    (calibrationProgress s) v (lastParsedData s) (debugMessages s)
    (squatPhases s) (measurementCountRef s) (connectRender s)
    (listenerRender s) (stopRender s).
Definition setLastParsedData (v : option Data.t) (s : State) : State :=
  mkState (mode s) (calibration s) (calibrationSamples s) (measurements s)
    (currentX s) (currentY s) (currentZ s) (finalStats s) (error s)
    (calibrationProgress s) (lastRawData s) v (debugMessages s)
    (squatPhases s) (measurementCountRef s) (connectRender s)
    (listenerRender s) (stopRender s).
Definition setDebugMessages (v : list string) (s : State) : State :=
  mkState (mode s) (calibration s) (calibrationSamples s) (measurements s)
    (currentX s) (currentY s) (currentZ s) (finalStats s) (error s)
    (calibrationProgress s) (lastRawData s) (lastParsedData s) v
    (squatPhases s) (measurementCountRef s) (connectRender s)
    (listenerRender s) (stopRender s).
Definition setSquatPhases (v : SquatPhases) (s : State) : State :=
  mkState (mode s) (calibration s) (calibrationSamples s) (measurements s)
    (currentX s) (currentY s) (currentZ s) (finalStats s) (error s)
    (calibrationProgress s) (lastRawData s) (lastParsedData s)
    (debugMessages s) v (measurementCountRef s) (connectRender s)
    (listenerRender s) (stopRender s).
Definition setMeasurementCountRef (v : nat) (s : State) : State :=
  mkState (mode s) (calibration s) (calibrationSamples s) (measurements s)
    (currentX s) (currentY s) (currentZ s) (finalStats s) (error s)
    (calibrationProgress s) (lastRawData s) (lastParsedData s)
    (debugMessages s) (squatPhases s) v (connectRender s) (listenerRender s)
    (stopRender s).
Definition setConnectRender (v : Render) (s : State) : State :=
  mkState (mode s) (calibration s) (calibrationSamples s) (measurements s)
    (currentX s) (currentY s) (currentZ s) (finalStats s) (error s)
    (calibrationProgress s) (lastRawData s) (lastParsedData s)
    (debugMessages s) (squatPhases s) (measurementCountRef s) v
    (listenerRender s) (stopRender s).
Definition setListenerRender (v : Render) (s : State) : State :=
  mkState (mode s) (calibration s) (calibrationSamples s) (measurements s)
    (currentX s) (currentY s) (currentZ s) (finalStats s) (error s)
    (calibrationProgress s) (lastRawData s) (lastParsedData s)
    (debugMessages s) (squatPhases s) (measurementCountRef s)
    (connectRender s) v (stopRender s).
Definition setStopRender (v : Render) (s : State) : State :=
  mkState (mode s) (calibration s) (calibrationSamples s) (measurements s)
    (currentX s) (currentY s) (currentZ s) (finalStats s) (error s)
    (calibrationProgress s) (lastRawData s) (lastParsedData s)
    (debugMessages s) (squatPhases s) (measurementCountRef s)
    (connectRender s) (listenerRender s) v.

(** The callbacks created by a render of the state [st]. *)
Definition render_of (st : State) : Render :=
  mkRender (calibration st) (measurements st).

(** The state of a freshly mounted component. *)
Definition initialState : State :=
  mkState idle (Calibration.mk 0 0 0) [] [] 0 0 0 None None 0
          "No data received" None [] (mkSquatPhases None 0) 0
          (mkRender (Calibration.mk 0 0 0) [])
          (mkRender (Calibration.mk 0 0 0) [])
          (mkRender (Calibration.mk 0 0 0) []).

(** ** Handlers *)

Section Tracker.

(** [Number::toString] on numbers from [10^21] on, see [toFixed]. *)
Variable exponent_form : R -> string.

Definition fixed (x : R) (f : nat) : string := toFixed exponent_form x f.

(** [new Date().toISOString().split('T')[1].split('.')[0]].  An ISO string
    always has the [T] and the [.], so both indexings are in range. *)
Definition timeOfDay (iso : string) : string :=
  nth 0 (str_split "." (nth 1 (str_split "T" iso) EmptyString)) EmptyString.

Definition debugEntry (now message : string) : string :=
  (timeOfDay now ++ " - " ++ message)%string.

Definition addDebugMessage (now message : string) (st : State) : State :=
  let newMessages := debugMessages st ++ [debugEntry now message] in
  setDebugMessages (slice_last 5 newMessages) st.

(** [data[i]]; every index the component reads is in range. *)
Definition at_index (data : list Measurement.t) (i : nat) : Measurement.t :=
  nth i data (Measurement.mk 0 0 0 0).

(** The body of the [for] loop of [detectSquatPhases] at index [i], on the
    loop variables [(bottomPoint, maxDepth)]. *)
Definition detect_body (data : list Measurement.t) (acc : option R * R)
    (i : nat) : option R * R :=
  let prev := Measurement.z (at_index data (i - 1)) in
  let curr := Measurement.z (at_index data i) in
  let next := Measurement.z (at_index data (i + 1)) in
  if Rltb curr prev && Rltb curr next && Rgtb (Rabs curr) (Rabs (snd acc))
  then (Some (Measurement.timestamp (at_index data i)), curr)
  else acc.

(** [detectSquatPhases]: [None] is the [null] returned on fewer than three
    measurements; the loop runs over [i = 1 .. data.length - 2]. *)
Definition detectSquatPhases (data : list Measurement.t) : option SquatPhases :=
  if (List.length data <? 3)%nat then None
  else
    let acc := fold_left (detect_body data)
                         (seq 1 (List.length data - 2)) (None, 0) in
    Some (mkSquatPhases (fst acc) (snd acc)).

(** [playBeep]: [audio] is [Some e] when creating or starting the oscillator
    throws [e]; the sound itself is not part of the state. *)
Definition playBeep (now : string) (audio : option string) (frequency : R)
    (st : State) : State :=
  match audio with
  | None => st
  | Some e => addDebugMessage now ("Audio error: " ++ e) st
  end.

Definition horizontalDeviation (measurement : Measurement.t) : R :=
  sqrt (Math_pow2 (Measurement.x measurement) +
        Math_pow2 (Measurement.z measurement)).

(** The [forEach] callback of [calculateFinalStats] on the two accumulators
    [(maxDeviation, totalDeviation)]. *)
Definition stats_body (acc : R * R) (measurement : Measurement.t) : R * R :=
  (Rmax (fst acc) (horizontalDeviation measurement),
   snd acc + horizontalDeviation measurement).

Definition calculateFinalStats (seen : Render) (now : string) (st : State)
    : State :=
  match seen_measurements seen with
  | [] => st
  | _ :: _ =>
      let ms := seen_measurements seen in
      let acc := fold_left stats_body ms (0, 0) in
      let duration := Measurement.timestamp (at_index ms (List.length ms - 1)) in
      let stats :=
        mkStats (fixed (fst acc) 2)
                (fixed (snd acc / INR (List.length ms)) 2)
                (fixed duration 2)
                (List.length ms) in
      addDebugMessage now
        ("Session complete - " ++ fixed duration 1 ++ "s, max="
           ++ maxDeviation stats ++ "°, avg=" ++ avgDeviation stats ++ "°")
        (setFinalStats (Some stats) st)
  end.

(** What both [handleDisconnect] and [stopTracking] do with a non-empty
    timeline: the statistics, then the squat phases, stored unless
    [detectSquatPhases] returns [null]. *)
Definition endOfSession (seen : Render) (now : string) (st : State) : State :=
  match seen_measurements seen with
  | [] => st
  | _ :: _ =>
      let st1 := calculateFinalStats seen now st in
      match detectSquatPhases (seen_measurements seen) with
      | Some phases => setSquatPhases phases st1
      | None => st1
      end
  end.

Definition handleDisconnect (seen : Render) (now : string) (st : State)
    : State :=
  let st := addDebugMessage now "Device disconnected" st in
  let st := endOfSession seen now st in
  setError (Some "Device disconnected"%string) (setMode idle st).

(** [newSamples.reduce((sum, sample) => sum + sample.axis, 0)]. *)
Definition reduce_sum (axis : Measurement.t -> R)
    (newSamples : list Measurement.t) : R :=
  fold_left (fun sum sample => sum + axis sample) newSamples 0.

Definition handleCalibrationData (now : string) (data : Data.t) (st : State)
    : State :=
  let elapsedTimeSeconds := INR (measurementCountRef st) * SAMPLE_PERIOD in
  let st := setMeasurementCountRef (S (measurementCountRef st)) st in
  let newSamples :=
    calibrationSamples st ++
      [Measurement.mk (Data.x data) (Data.y data) (Data.z data)
                      elapsedTimeSeconds] in
  let progress :=
    INR (List.length newSamples) / INR REQUIRED_CALIBRATION_SAMPLES * 100 in
  let st := setCalibrationProgress (Rmin progress 100) st in
  let st :=
    addDebugMessage now
      ("Calibration sample " ++ string_of_nat (List.length newSamples) ++ "/"
         ++ string_of_nat REQUIRED_CALIBRATION_SAMPLES) st in
  let st :=
    if (REQUIRED_CALIBRATION_SAMPLES <=? List.length newSamples)%nat then
      let avgX := reduce_sum Measurement.x newSamples
                  / INR (List.length newSamples) in
      let avgY := reduce_sum Measurement.y newSamples
                  / INR (List.length newSamples) in
      let avgZ := reduce_sum Measurement.z newSamples
                  / INR (List.length newSamples) in
      let st := setCalibration (Calibration.mk avgX avgY avgZ) st in
      let st := setMode tracking st in
      let st := setMeasurements [] st in
      addDebugMessage now "Calibration complete! Starting tracking..." st
    else st in
  setCalibrationSamples newSamples st.

(** What a notification carries: no [DataView], or a raw text on which
    [JSON.parse] throws or yields a payload. *)
Inductive Parsed :=
| ParseError (message : string)
| Payload (data : Data.t).

Inductive Notification :=
| EmptyDataView
| Value (rawValue : string) (parsed : Parsed).

Definition handleMotionData (seen : Render) (now : string)
    (event : Notification) (st : State) : State :=
  match event with
  | EmptyDataView => addDebugMessage now "Received empty dataView" st
  | Value rawValue parsed =>
      let st := setLastRawData rawValue st in
      match parsed with
      | ParseError message =>
          let errorMessage := ("Error parsing data: " ++ message)%string in
          setError (Some errorMessage) (addDebugMessage now errorMessage st)
      | Payload data =>
          let st := setLastParsedData (Some data) st in
          match mode st with
          | calibrating => handleCalibrationData now data st
          | tracking =>
              let calibration := seen_calibration seen in
              let calibratedX := Data.x data - Calibration.x calibration in
              let calibratedY := Data.y data - Calibration.y calibration in
              let calibratedZ := Data.z data - Calibration.z calibration in
              let st := setCurrentX calibratedX st in
              let st := setCurrentY calibratedY st in
              let st := setCurrentZ calibratedZ st in
              let elapsedTimeSeconds :=
                INR (measurementCountRef st) * SAMPLE_PERIOD in
              let st :=
                setMeasurementCountRef (S (measurementCountRef st)) st in
              let st :=
                setMeasurements
                  (measurements st ++
                     [Measurement.mk calibratedX calibratedY calibratedZ
                                     elapsedTimeSeconds]) st in
              addDebugMessage now
                ("Data [" ++ fixed elapsedTimeSeconds 1 ++ "s]: x="
                   ++ fixed calibratedX 2 ++ "°, y=" ++ fixed calibratedY 2
                   ++ "°, z=" ++ fixed calibratedZ 2 ++ "°") st
          | _ => st
          end
      end
  end.

Definition resetMeasurementCount (st : State) : State :=
  setMeasurementCountRef 0 st.

(** [connectBLE] is asynchronous; each stretch between two [await]s is one
    step.  [connectBLE_start] runs up to the device request; it is called
    from the button, so its render is the latest one. *)
Definition connectBLE_start (now : string) (st : State) : State :=
  let st := setConnectRender (render_of st) st in
  let st := setMode connecting st in
  let st := setError None st in
  let st := setCalibrationSamples [] st in
  let st := setCalibrationProgress 0 st in
  let st := resetMeasurementCount st in
  addDebugMessage now "Starting BLE connection..." st.

Definition connectBLE_selected (now : string) (st : State) : State :=
  addDebugMessage now "Device selected, connecting to GATT server..." st.

Definition connectBLE_connected (now : string) (st : State) : State :=
  addDebugMessage now "Connected to GATT server, getting service..." st.

Definition connectBLE_service (now : string) (st : State) : State :=
  addDebugMessage now "Starting notifications..." st.

(** The last stretch, once notifications are on: the [handleMotionData] and
    [handleDisconnect] in scope, those of the render of this [connectBLE],
    become the listeners. *)
Definition connectBLE_ready (now : string) (audio : option string)
    (st : State) : State :=
  let st := setListenerRender (connectRender st) st in
  let st := addDebugMessage now ("Starting calibration at: " ++ now) st in
  let st := setMode calibrating st in
  playBeep now audio 440 st.

(** The [catch] branch of [connectBLE]. *)
Definition connectBLE_catch (now message : string) (st : State) : State :=
  let errorMessage := ("Connection failed: " ++ message)%string in
  let st := setError (Some errorMessage) st in
  let st := addDebugMessage now errorMessage st in
  setMode idle st.

(** [stopTracking] up to [await device.gatt.disconnect()], during which the
    disconnect listener runs; it is called from the button. *)
Definition stopTracking_start (now : string) (st : State) : State :=
  let st := setStopRender (render_of st) st in
  addDebugMessage now "Stopping tracking..." st.

(** [stopTracking] after the [await]. *)
Definition stopTracking_finish (seen : Render) (now : string)
    (audio : option string) (st : State) : State :=
  let st := endOfSession seen now st in
  let st := setMode idle st in
  playBeep now audio 880 st.

(** [stopTracking] when the device is not connected any more: no [await]. *)
Definition stopTracking (now : string) (audio : option string) (st : State)
    : State :=
  stopTracking_finish (render_of st) now audio (stopTracking_start now st).

(** ** The session as a run of events *)

Inductive Event :=
| ConnectStart
| ConnectSelected
| ConnectConnected
| ConnectService
| ConnectReady (audio : option string)
| ConnectFailed (message : string)
| Motion (event : Notification)
| Disconnect
| StopStart
| StopFinish (audio : option string)
| Stop (audio : option string).

(** One event, with the clock reading of its handler.  The listeners run as
    closures of [listenerRender], the second half of [stopTracking] as a
    closure of [stopRender]. *)
Definition step (st : State) (ev : string * Event) : State :=
  let now := fst ev in
  match snd ev with
  | ConnectStart => connectBLE_start now st
  | ConnectSelected => connectBLE_selected now st
  | ConnectConnected => connectBLE_connected now st
  | ConnectService => connectBLE_service now st
  | ConnectReady audio => connectBLE_ready now audio st
  | ConnectFailed message => connectBLE_catch now message st
  | Motion event => handleMotionData (listenerRender st) now event st
  | Disconnect => handleDisconnect (listenerRender st) now st
  | StopStart => stopTracking_start now st
  | StopFinish audio => stopTracking_finish (stopRender st) now audio st
  | Stop audio => stopTracking now audio st
  end.

Definition run (st : State) (evs : list (string * Event)) : State :=
  fold_left step evs st.

(** A raw sample as it reaches the component: the clock reading of its
    handler, the raw text and the payload parsed from it. *)
Record Delivery := mkDelivery {
  clock : string;
  rawValue : string;
  payload : Data.t
}.

Definition sample_event (d : Delivery) : string * Event :=
  (clock d, Motion (Value (rawValue d) (Payload (payload d)))).

Definition sample_events (ds : list Delivery) : list (string * Event) :=
  map sample_event ds.

(** ** Specification vocabulary *)

(** The forward-back angle and the time stamp at index [i] of a timeline. *)
Definition z_at (data : list Measurement.t) (i : nat) : R :=
  Measurement.z (at_index data i).

Definition t_at (data : list Measurement.t) (i : nat) : R :=
  Measurement.timestamp (at_index data i).

(** An interior index whose [z] is strictly below both neighbours. *)
Definition candidate (data : list Measurement.t) (i : nat) : Prop :=
  (1 <= i)%nat /\ (i + 1 < List.length data)%nat /\
  z_at data i < z_at data (i - 1) /\ z_at data i < z_at data (i + 1).

(** A candidate of largest magnitude, the first one among equals. *)
Definition deepest_first (data : list Measurement.t) (j : nat) : Prop :=
  candidate data j /\
  (forall i, candidate data i -> Rabs (z_at data i) <= Rabs (z_at data j)) /\
  (forall i, candidate data i -> (i < j)%nat ->
             Rabs (z_at data i) < Rabs (z_at data j)).

(** The calibration sample buffered for payload [d] when the counter is at
    [count], and the buffer built from a run of deliveries. *)
Definition buffered (count : nat) (d : Data.t) : Measurement.t :=
  Measurement.mk (Data.x d) (Data.y d) (Data.z d) (INR count * SAMPLE_PERIOD).

Fixpoint buffer_from (count : nat) (ds : list Delivery) : list Measurement.t :=
  match ds with
  | [] => []
  | d :: ds' => buffered count (payload d) :: buffer_from (S count) ds'
  end.

(** The measurement appended for payload [d] under baseline [cal] when the
    counter is at [count], and the timeline built from a run of deliveries. *)
Definition deviation (cal : Calibration.t) (count : nat) (d : Data.t)
    : Measurement.t :=
  Measurement.mk (Data.x d - Calibration.x cal) (Data.y d - Calibration.y cal)
                 (Data.z d - Calibration.z cal) (INR count * SAMPLE_PERIOD).

Fixpoint timeline_from (cal : Calibration.t) (count : nat) (ds : list Delivery)
    : list Measurement.t :=
  match ds with
  | [] => []
  | d :: ds' => deviation cal count (payload d) :: timeline_from cal (S count) ds'
  end.

(** A session that has just entered calibration: what [connectBLE] leaves. *)
Definition fresh_calibrating (st : State) : Prop :=
  mode st = calibrating /\ calibrationSamples st = [] /\
  measurementCountRef st = 0%nat.

(** [c] does not occur in [s]. *)
Fixpoint without (c : ascii) (s : string) : bool :=
  match s with
  | EmptyString => true
  | String c' rest => negb (Ascii.eqb c' c) && without c rest
  end.

(** Appending the messages [(now, message)] one after the other. *)
Definition log_all (entries : list (string * string)) (st : State) : State :=
  fold_left (fun s e => addDebugMessage (fst e) (snd e) s) entries st.

Definition entry_of (e : string * string) : string :=
  debugEntry (fst e) (snd e).

(** Sum and mean of a list of numbers, independently of the order in which
    the component adds them up. *)
Definition Rsum (l : list R) : R := fold_right Rplus 0 l.

Definition mean (l : list R) : R := Rsum l / INR (List.length l).

(** The baseline of ten calibration deliveries. *)
Definition baseline_of (cs : list Delivery) : Calibration.t :=
  Calibration.mk (mean (map (fun d => Data.x (payload d)) cs))
                 (mean (map (fun d => Data.y (payload d)) cs))
                 (mean (map (fun d => Data.z (payload d)) cs)).

(** A whole session: connect, the calibration samples [cs], the tracking
    samples [ts], stop, with the disconnect listener running while
    [stopTracking] awaits the disconnection; every handler at the clock
    reading [now] and the audio working. *)
Definition session (now : string) (cs ts : list Delivery)
    : list (string * Event) :=
  [(now, ConnectStart); (now, ConnectReady None)]
    ++ sample_events cs ++ sample_events ts
    ++ [(now, StopStart); (now, Disconnect); (now, StopFinish None)].

(** What holds of the loop variables once the indices [1 .. k] are done. *)
Definition loop_inv (data : list Measurement.t) (k : nat) (acc : option R * R)
    : Prop :=
  (acc = (None, 0) /\
   forall i, candidate data i -> (i <= k)%nat -> z_at data i = 0)
  \/
  (exists j, (j <= k)%nat /\ candidate data j /\ z_at data j <> 0 /\
     acc = (Some (t_at data j), z_at data j) /\
     (forall i, candidate data i -> (i <= k)%nat ->
                Rabs (z_at data i) <= Rabs (z_at data j)) /\
     (forall i, candidate data i -> (i < j)%nat ->
                Rabs (z_at data i) < Rabs (z_at data j))).

(** ** Concrete inputs *)

(** The inputs below stay under [10^21], where [toFixed] does not use the
    exponent notation; any function serves as the parameter. *)
Definition no_exponent : R -> string := fun _ => EmptyString.

Definition noon : string := "2025-03-01T12:00:00.000Z".

Definition dq : string := String (ascii_of_nat 34) EmptyString.

(** The sensor's text for the payload with the decimals [xs], [ys], [zs]. *)
Definition json_text (xs ys zs : string) : string :=
  ("{" ++ dq ++ "x" ++ dq ++ ":" ++ xs ++ "," ++ dq ++ "y" ++ dq ++ ":" ++ ys
       ++ "," ++ dq ++ "z" ++ dq ++ ":" ++ zs ++ "}")%string.

(** The sensor held still, and leaning by [z] degrees forward or back. *)
Definition at_rest : Delivery :=
  mkDelivery noon (json_text "0" "0" "0") (Data.mk 0 0 0).

Definition leaning (zs : string) (z : R) : Delivery :=
  mkDelivery noon (json_text "0" "0" zs) (Data.mk 0 0 z).

(** The component after [connectBLE] on a fresh mount. *)
Definition connected : State :=
  connectBLE_ready noon None (connectBLE_start noon initialState).

Definition ten_readings : list Delivery :=
  map (fun n => mkDelivery noon
                  (json_text (string_of_nat n) (string_of_nat (2 * n)) "3")
                  (Data.mk (INR n) (INR (2 * n)) 3))
      (seq 0 10).

Definition ten_123 : list Delivery :=
  repeat (mkDelivery noon (json_text "1" "2" "3") (Data.mk 1 2 3)) 10.

Definition reading_456 : Delivery :=
  mkDelivery noon (json_text "4" "5" "6") (Data.mk 4 5 6).

(** A render that sees a timeline of two measurements. *)
Definition two_seen : Render :=
  mkRender (Calibration.mk 0 0 0)
           [Measurement.mk 3 0 4 0; Measurement.mk 0 0 0 (5 / 100)].

(** The timeline of the squat example. *)
Definition squat_example : list Measurement.t :=
  [Measurement.mk 0 0 0 0; Measurement.mk 0 0 (-1) (5 / 100);
   Measurement.mk 0 0 (-5) (10 / 100); Measurement.mk 0 0 (-2) (15 / 100);
   Measurement.mk 0 0 0 (20 / 100)].

(** A dip to exactly [0] between two positive angles. *)
Definition zero_dip : list Measurement.t :=
  [Measurement.mk 0 0 1 0; Measurement.mk 0 0 0 (5 / 100);
   Measurement.mk 0 0 1 (10 / 100)].

Definition rising : list Measurement.t :=
  [Measurement.mk 0 0 1 0; Measurement.mk 0 0 2 (5 / 100);
   Measurement.mk 0 0 3 (10 / 100)].

(** A first session with a squat of three measurements, then a second one
    stopped after two. *)
Definition squat_session : list (string * Event) :=
  session noon (repeat at_rest 10)
          [leaning "0" 0; leaning "-5" (-5); leaning "0" 0].

Definition short_session : list (string * Event) :=
  session noon (repeat at_rest 10) [leaning "0" 0; leaning "-5" (-5)].

Definition eight_messages : list (string * string) :=
  [("2025-03-01T12:00:01.250Z", "one"); ("2025-03-01T12:00:02.250Z", "two");
   ("2025-03-01T12:00:03.250Z", "three"); ("2025-03-01T12:00:04.250Z", "four");
   ("2025-03-01T12:00:05.250Z", "five"); ("2025-03-01T12:00:06.250Z", "six");
   ("2025-03-01T12:00:07.250Z", "seven");
   ("2025-03-01T12:00:08.250Z", "eight")]%string.

(** ** Vocabulary for the further properties *)

(** What the session logic reads and writes: everything but the debug
    panel's [lastRawData], [lastParsedData] and log, the [error] banner and
    the renders of a [connectBLE] or [stopTracking] under way. *)
Definition session_view (st : State) :=
  (mode st, calibration st, calibrationSamples st, measurements st,
   (currentX st, currentY st, currentZ st),
   (finalStats st, squatPhases st, calibrationProgress st),
   (measurementCountRef st, listenerRender st)).

(** Notifications as events, and the deliveries among them that carry a
    parsed payload. *)
Definition motion_events (ns : list (string * Notification))
    : list (string * Event) :=
  map (fun n => (fst n, Motion (snd n))) ns.

Fixpoint deliveries (ns : list (string * Notification)) : list Delivery :=
  match ns with
  | [] => []
  | (now, Value raw (Payload data)) :: ns' =>
      mkDelivery now raw data :: deliveries ns'
  | _ :: ns' => deliveries ns'
  end.

(** [squatPhases?.bottomPoint && ...], the test under which the view draws
    the bottom marker and the "Bottom of Squat" box: a number is truthy
    unless it is [0]. *)
Definition bottomShown (phases : SquatPhases) : bool :=
  match bottomPoint phases with
  | Some t => if Req_dec_T t 0 then false else true
  | None => false
  end.

(** The stretches of [connectBLE] between its first and its last one. *)
Definition connect_progress (e : Event) : bool :=
  match e with
  | ConnectSelected | ConnectConnected | ConnectService => true
  | _ => false
  end.

(** ** Concrete inputs for the further properties *)

(** A component in tracking mode with an empty timeline. *)
Definition tracking_state : State := setMode tracking initialState.

(** Notifications of the three kinds. *)
Definition mixed_notifications : list (string * Notification) :=
  [(noon, Value (json_text "4" "5" "6") (Payload (Data.mk 4 5 6)));
   (noon, EmptyDataView);
   (noon, Value "{" (ParseError "Unexpected end of JSON input"))].

(** The timeline of [two_seen] with other up-down angles. *)
Definition two_seen_tilted : Render :=
  mkRender (Calibration.mk 0 0 0)
           [Measurement.mk 3 7 4 0; Measurement.mk 0 (-2) 0 (5 / 100)].

Definition three_leanings : list Delivery :=
  [leaning "0" 0; leaning "-5" (-5); leaning "0" 0].

(** ** Basic facts *)

Lemma Rltb_true (a b : R) : Rltb a b = true <-> a < b.
Proof.
  unfold Rltb. destruct (Rlt_dec a b); split; intros; try lra; congruence.
Qed.

Lemma Rltb_false (a b : R) : Rltb a b = false <-> b <= a.
Proof.
  unfold Rltb. destruct (Rlt_dec a b); split; intros; try lra; congruence.
Qed.

Lemma slice_last_length {A : Type} (n : nat) (l : list A) :
  List.length (slice_last n l) = Nat.min (List.length l) n.
Proof. unfold slice_last. rewrite length_skipn. lia. Qed.

Lemma slice_last_all {A : Type} (n : nat) (l : list A) :
  (List.length l <= n)%nat -> slice_last n l = l.
Proof.
  intros H. unfold slice_last.
  replace (List.length l - n)%nat with 0%nat by lia. reflexivity.
Qed.

(** Truncating, appending and truncating again is truncating once. *)
Lemma slice_last_app {A : Type} (n : nat) (l k : list A) :
  slice_last n (slice_last n l ++ k) = slice_last n (l ++ k).
Proof.
  unfold slice_last.
  rewrite !length_app, length_skipn.
  destruct (Nat.le_gt_cases (List.length l) n) as [Hle | Hgt].
  - replace (List.length l - n)%nat with 0%nat by lia. simpl.
    f_equal. lia.
  - rewrite !skipn_app, length_skipn, skipn_skipn.
    f_equal; f_equal; lia.
Qed.

(** ** The squat phase loop *)

Lemma detect_body_taken (data : list Measurement.t) (acc : option R * R)
    (i : nat) :
  z_at data i < z_at data (i - 1) -> z_at data i < z_at data (i + 1) ->
  Rabs (snd acc) < Rabs (z_at data i) ->
  detect_body data acc i = (Some (t_at data i), z_at data i).
Proof.
  intros H1 H2 H3. unfold detect_body, Rgtb.
  fold (z_at data i) (z_at data (i - 1)) (z_at data (i + 1)) (t_at data i).
  apply Rltb_true in H1, H2, H3. rewrite H1, H2, H3. reflexivity.
Qed.

Lemma detect_body_skipped (data : list Measurement.t) (acc : option R * R)
    (i : nat) :
  z_at data (i - 1) <= z_at data i \/ z_at data (i + 1) <= z_at data i \/
  Rabs (z_at data i) <= Rabs (snd acc) ->
  detect_body data acc i = acc.
Proof.
  intros H. unfold detect_body, Rgtb.
  fold (z_at data i) (z_at data (i - 1)) (z_at data (i + 1)) (t_at data i).
  destruct H as [H | [H | H]]; apply Rltb_false in H; rewrite H;
    rewrite ?andb_false_r; reflexivity.
Qed.

(** The kept index stays the same: all parts of the invariant but the bound
    on the candidates seen so far are hypotheses. *)
Ltac same_bottom :=
  split; [lia |]; split; [assumption |]; split; [assumption |];
  split; [assumption |]; split; [| assumption].

Lemma loop_inv_step (data : list Measurement.t) (k : nat)
    (acc : option R * R) :
  (S k + 1 < List.length data)%nat ->
  loop_inv data k acc -> loop_inv data (S k) (detect_body data acc (S k)).
Proof.
  intros Hk Hinv.
  destruct (Rlt_dec (z_at data (S k)) (z_at data (S k - 1))) as [H1 | H1];
    [destruct (Rlt_dec (z_at data (S k)) (z_at data (S k + 1))) as [H2 | H2];
     [destruct (Rlt_dec (Rabs (snd acc)) (Rabs (z_at data (S k)))) as [H3 | H3]
     | ] | ].
  - (* a deeper candidate: taken *)
    rewrite detect_body_taken by assumption.
    assert (Hc : candidate data (S k)) by (unfold candidate; repeat split; (lia || assumption)).
    right. exists (S k). split; [lia |]. split; [exact Hc |].
    assert (Hnz : z_at data (S k) <> 0).
    { intro E. rewrite E, Rabs_R0 in H3. pose proof (Rabs_pos (snd acc)). lra. }
    split; [exact Hnz |]. split; [reflexivity |].
    destruct Hinv as [[Eacc Hz] | (j & Hj & Hcj & Hnzj & Eacc & Hmax & Hfirst)];
      subst acc; simpl in H3.
    + split; intros i Hi Hle.
      * destruct (Nat.eq_dec i (S k)) as [-> | Hne]; [lra |].
        rewrite (Hz i Hi) by lia. rewrite Rabs_R0. apply Rabs_pos.
      * rewrite (Hz i Hi) by lia. rewrite Rabs_R0.
        apply Rabs_pos_lt. exact Hnz.
    + split; intros i Hi Hle.
      * destruct (Nat.eq_dec i (S k)) as [-> | Hne]; [lra |].
        assert (Rabs (z_at data i) <= Rabs (z_at data j)) by (apply Hmax; [assumption | lia]).
        lra.
      * assert (Rabs (z_at data i) <= Rabs (z_at data j)) by (apply Hmax; [assumption | lia]).
        lra.
  - (* a candidate that is not deeper: kept as it was *)
    rewrite detect_body_skipped by (right; right; lra).
    assert (Hc : candidate data (S k)) by (unfold candidate; repeat split; (lia || assumption)).
    destruct Hinv as [[Eacc Hz] | (j & Hj & Hcj & Hnzj & Eacc & Hmax & Hfirst)].
    + left. split; [exact Eacc |]. intros i Hi Hle.
      destruct (Nat.eq_dec i (S k)) as [-> | Hne]; [| apply Hz; [assumption | lia]].
      subst acc. simpl in H3. rewrite Rabs_R0 in H3.
      pose proof (Rabs_pos (z_at data (S k))) as Hp.
      destruct (Req_dec (z_at data (S k)) 0) as [E | E]; [exact E |].
      apply Rabs_pos_lt in E. lra.
    + right. exists j. same_bottom.
      intros i Hi Hle.
      destruct (Nat.eq_dec i (S k)) as [-> | Hne]; [| apply Hmax; [assumption | lia]].
      subst acc. simpl in H3. lra.
  - rewrite detect_body_skipped by (right; left; lra).
    destruct Hinv as [[Eacc Hz] | (j & Hj & Hcj & Hnzj & Eacc & Hmax & Hfirst)].
    + left. split; [exact Eacc |]. intros i Hi Hle.
      destruct (Nat.eq_dec i (S k)) as [-> | Hne]; [| apply Hz; [assumption | lia]].
      destruct Hi as (_ & _ & _ & Hi). lra.
    + right. exists j. same_bottom.
      intros i Hi Hle.
      destruct (Nat.eq_dec i (S k)) as [-> | Hne]; [| apply Hmax; [assumption | lia]].
      destruct Hi as (_ & _ & _ & Hi). lra.
  - rewrite detect_body_skipped by (left; lra).
    destruct Hinv as [[Eacc Hz] | (j & Hj & Hcj & Hnzj & Eacc & Hmax & Hfirst)].
    + left. split; [exact Eacc |]. intros i Hi Hle.
      destruct (Nat.eq_dec i (S k)) as [-> | Hne]; [| apply Hz; [assumption | lia]].
      destruct Hi as (_ & _ & Hi & _). lra.
    + right. exists j. same_bottom.
      intros i Hi Hle.
      destruct (Nat.eq_dec i (S k)) as [-> | Hne]; [| apply Hmax; [assumption | lia]].
      destruct Hi as (_ & _ & Hi & _). lra.
Qed.

Lemma loop_inv_run (data : list Measurement.t) (n : nat) :
  (n + 2 <= List.length data)%nat ->
  loop_inv data n (fold_left (detect_body data) (seq 1 n) (None, 0)).
Proof.
  induction n as [| n IH]; intros Hn.
  - simpl. left. split; [reflexivity |].
    intros i Hi Hle. destruct Hi as (Hi & _). lia.
  - rewrite seq_S, fold_left_app. simpl.
    apply loop_inv_step; [lia |]. apply IH. lia.
Qed.

(** The result of [detectSquatPhases] on three or more measurements: either
    nothing was kept, and then every candidate has [z = 0], or the first
    deepest candidate was kept, and its [z] is not [0]. *)
Lemma detectSquatPhases_cases (data : list Measurement.t) :
  (3 <= List.length data)%nat ->
  (detectSquatPhases data = Some (mkSquatPhases None 0) /\
   forall i, candidate data i -> z_at data i = 0)
  \/
  (exists j, deepest_first data j /\ z_at data j <> 0 /\
     detectSquatPhases data =
       Some (mkSquatPhases (Some (t_at data j)) (z_at data j))).
Proof.
  intros Hlen. unfold detectSquatPhases.
  destruct (Nat.ltb_spec (List.length data) 3) as [Hlt | _]; [lia |].
  pose proof (loop_inv_run data (List.length data - 2)) as Hinv.
  destruct Hinv as [[Eacc Hz] | (j & Hj & Hcj & Hnzj & Eacc & Hmax & Hfirst)];
    [lia | | ]; rewrite Eacc; simpl.
  - left. split; [reflexivity |].
    intros i Hi. apply Hz; [exact Hi |]. destruct Hi as (_ & Hi & _). lia.
  - right. exists j. split; [| split; [exact Hnzj | reflexivity]].
    split; [exact Hcj |]. split; [| exact Hfirst].
    intros i Hi. apply Hmax; [exact Hi |]. destruct Hi as (_ & Hi & _). lia.
Qed.

(** Two first deepest candidates are the same index. *)
Lemma deepest_first_unique (data : list Measurement.t) (j j' : nat) :
  deepest_first data j -> deepest_first data j' -> j = j'.
Proof.
  intros (Hc & Hmax & Hfirst) (Hc' & Hmax' & Hfirst').
  destruct (Nat.lt_trichotomy j j') as [Hlt | [E | Hgt]]; [| exact E |].
  - pose proof (Hfirst' j Hc Hlt). pose proof (Hmax j' Hc'). lra.
  - pose proof (Hfirst j' Hc' Hgt). pose proof (Hmax' j Hc). lra.
Qed.


(** ** Calibration and tracking runs *)

Lemma run_app (st : State) (evs1 evs2 : list (string * Event)) :
  run st (evs1 ++ evs2) = run (run st evs1) evs2.
Proof. unfold run. apply fold_left_app. Qed.

Lemma reduce_sum_from (axis : Measurement.t -> R) (l : list Measurement.t)
    (a : R) :
  fold_left (fun sum sample => sum + axis sample) l a = a + Rsum (map axis l).
Proof.
  revert a. induction l as [| m l IH]; intros a; simpl.
  - lra.
  - rewrite IH. lra.
Qed.

Lemma reduce_sum_Rsum (axis : Measurement.t -> R) (l : list Measurement.t) :
  reduce_sum axis l = Rsum (map axis l).
Proof. unfold reduce_sum. rewrite reduce_sum_from. lra. Qed.

Lemma buffer_from_length (count : nat) (ds : list Delivery) :
  List.length (buffer_from count ds) = List.length ds.
Proof.
  revert count. induction ds as [| d ds IH]; intros count; simpl;
    [reflexivity | now rewrite IH].
Qed.

Lemma buffer_from_app (count : nat) (ds1 ds2 : list Delivery) :
  buffer_from count (ds1 ++ ds2) =
  buffer_from count ds1 ++ buffer_from (count + List.length ds1) ds2.
Proof.
  revert count. induction ds1 as [| d ds1 IH]; intros count; simpl.
  - now rewrite Nat.add_0_r.
  - rewrite IH. do 3 f_equal. lia.
Qed.

Lemma buffer_from_axes (count : nat) (ds : list Delivery) :
  map Measurement.x (buffer_from count ds) = map (fun d => Data.x (payload d)) ds /\
  map Measurement.y (buffer_from count ds) = map (fun d => Data.y (payload d)) ds /\
  map Measurement.z (buffer_from count ds) = map (fun d => Data.z (payload d)) ds.
Proof.
  revert count. induction ds as [| d ds IH]; intros count; simpl.
  - repeat split.
  - destruct (IH (S count)) as (Hx & Hy & Hz). rewrite Hx, Hy, Hz. repeat split.
Qed.

Lemma timeline_from_length (cal : Calibration.t) (count : nat)
    (ds : list Delivery) :
  List.length (timeline_from cal count ds) = List.length ds.
Proof.
  revert count. induction ds as [| d ds IH]; intros count; simpl;
    [reflexivity | now rewrite IH].
Qed.

Lemma timeline_from_nth (cal : Calibration.t) (ds : list Delivery) :
  forall (count i : nat) (d0 : Delivery),
  (i < List.length ds)%nat ->
  at_index (timeline_from cal count ds) i =
  deviation cal (count + i) (payload (nth i ds d0)).
Proof.
  unfold at_index.
  induction ds as [| d ds IH]; intros count i d0 Hi; simpl in Hi; [lia |].
  destruct i as [| i]; simpl.
  - now rewrite Nat.add_0_r.
  - rewrite (IH (S count) i d0) by lia. f_equal. lia.
Qed.

(** One calibration sample: the buffer and the counter grow by one; from the
    tenth buffered sample on the baseline is stored, the mode becomes
    [tracking] and the timeline is emptied. *)
Lemma handleCalibrationData_effect (now : string) (d : Data.t) (st : State) :
  let newSamples :=
    calibrationSamples st ++ [buffered (measurementCountRef st) d] in
  let st' := handleCalibrationData now d st in
  calibrationSamples st' = newSamples /\
  measurementCountRef st' = S (measurementCountRef st) /\
  squatPhases st' = squatPhases st /\
  listenerRender st' = listenerRender st /\
  if (10 <=? List.length newSamples)%nat
  then mode st' = tracking /\ measurements st' = [] /\
       calibration st' =
         Calibration.mk
           (reduce_sum Measurement.x newSamples / INR (List.length newSamples))
           (reduce_sum Measurement.y newSamples / INR (List.length newSamples))
           (reduce_sum Measurement.z newSamples / INR (List.length newSamples))
  else mode st' = mode st /\ measurements st' = measurements st /\
       calibration st' = calibration st.
Proof.
  unfold handleCalibrationData, REQUIRED_CALIBRATION_SAMPLES, buffered.
  cbn zeta.
  destruct (10 <=? _)%nat; cbn; repeat split.
Qed.

Lemma step_sample_calibrating (st : State) (d : Delivery) :
  mode st = calibrating ->
  step st (sample_event d) =
  handleCalibrationData (clock d) (payload d)
    (setLastParsedData (Some (payload d)) (setLastRawData (rawValue d) st)).
Proof.
  intros Hm. unfold step, sample_event, handleMotionData. cbn [fst snd].
  cbn [mode setLastRawData setLastParsedData].
  rewrite Hm. reflexivity.
Qed.

(** Samples that do not yet fill the buffer. *)
Lemma calibrating_run (ds : list Delivery) :
  forall st : State,
  mode st = calibrating ->
  (List.length (calibrationSamples st) + List.length ds < 10)%nat ->
  let st' := run st (sample_events ds) in
  mode st' = calibrating /\
  calibrationSamples st' =
    calibrationSamples st ++ buffer_from (measurementCountRef st) ds /\
  measurementCountRef st' = (measurementCountRef st + List.length ds)%nat /\
  measurements st' = measurements st /\
  calibration st' = calibration st /\
  squatPhases st' = squatPhases st /\
  listenerRender st' = listenerRender st.
Proof.
  induction ds as [| d ds IH]; intros st Hm Hlen; simpl.
  - rewrite app_nil_r, Nat.add_0_r. repeat split. exact Hm.
  - simpl in Hlen.
    rewrite (step_sample_calibrating st d Hm).
    set (st0 := setLastParsedData _ _).
    pose proof (handleCalibrationData_effect (clock d) (payload d) st0) as H.
    cbn zeta in H. destruct H as (Hs & Hc & Hq & Hf & Hif).
    assert (Hs0 : calibrationSamples st0 = calibrationSamples st) by reflexivity.
    assert (Hc0 : measurementCountRef st0 = measurementCountRef st) by reflexivity.
    rewrite Hs0, Hc0 in *.
    destruct (Nat.leb_spec 10
                (List.length (calibrationSamples st ++
                   [buffered (measurementCountRef st) (payload d)]))) as [Hge | Hlt].
    { rewrite length_app in Hge. simpl in Hge. lia. }
    destruct Hif as (Hm' & Hms & Hcal).
    specialize (IH (handleCalibrationData (clock d) (payload d) st0)).
    cbn zeta in IH. fold (sample_events ds) in *.
    destruct IH as (I1 & I2 & I3 & I4 & I5 & I6 & I7).
    + rewrite Hm'. exact Hm.
    + rewrite Hs, length_app. simpl. lia.
    + rewrite I1, I2, I3, I4, I5, I6, I7, Hs, Hc, Hms, Hcal, Hq, Hf.
      rewrite <- app_assoc. simpl.
      repeat split. lia.
Qed.

(** The samples that fill the buffer: the mode becomes [tracking] with the
    mean of the whole buffer as baseline and an empty timeline. *)
Lemma calibration_completes (ds : list Delivery) (st : State) :
  mode st = calibrating ->
  (List.length (calibrationSamples st) + List.length ds = 10)%nat ->
  ds <> [] ->
  let all := calibrationSamples st ++ buffer_from (measurementCountRef st) ds in
  let st' := run st (sample_events ds) in
  mode st' = tracking /\
  calibrationSamples st' = all /\
  measurementCountRef st' = (measurementCountRef st + List.length ds)%nat /\
  measurements st' = [] /\
  calibration st' =
    Calibration.mk (mean (map Measurement.x all)) (mean (map Measurement.y all))
                   (mean (map Measurement.z all)) /\
  squatPhases st' = squatPhases st /\
  listenerRender st' = listenerRender st.
Proof.
  intros Hm Hlen Hne.
  destruct (exists_last Hne) as (ds9 & d & ->).
  rewrite length_app in Hlen. simpl in Hlen.
  unfold sample_events. rewrite map_app, run_app. fold (sample_events ds9).
  destruct (calibrating_run ds9 st Hm) as (I1 & I2 & I3 & I4 & I5 & I6 & I7);
    [lia |].
  set (st1 := run st (sample_events ds9)) in *.
  cbn zeta. simpl map.
  change (run st1 [sample_event d]) with (step st1 (sample_event d)).
  rewrite (step_sample_calibrating st1 d I1).
  set (st0 := setLastParsedData _ _).
  pose proof (handleCalibrationData_effect (clock d) (payload d) st0) as H.
  cbn zeta in H. destruct H as (Hs & Hc & Hq & Hf & Hif).
  assert (Hs0 : calibrationSamples st0 = calibrationSamples st1) by reflexivity.
  assert (Hc0 : measurementCountRef st0 = measurementCountRef st1) by reflexivity.
  rewrite Hs0, Hc0, I2, I3 in *.
  rewrite buffer_from_app. simpl buffer_from.
  rewrite app_assoc.
  set (all := (calibrationSamples st ++ buffer_from (measurementCountRef st) ds9)
              ++ [buffered (measurementCountRef st + List.length ds9) (payload d)]) in *.
  assert (Hall : List.length all = 10%nat).
  { unfold all. rewrite !length_app, buffer_from_length. simpl. lia. }
  rewrite Hall in Hif. change (10 <=? 10)%nat with true in Hif. cbv iota in Hif.
  destruct Hif as (Hm' & Hms & Hcal).
  repeat split; try assumption.
  - rewrite Hc, length_app. simpl. lia.
  - rewrite Hcal. unfold mean. rewrite !length_map, !reduce_sum_Rsum, Hall.
    reflexivity.
  - rewrite Hq. exact I6.
  - rewrite Hf. exact I7.
Qed.

(** [handleMotionData] in [tracking] mode, as a closure of the render [seen]:
    the measurement it appends is the sample minus the [calibration] of that
    render. *)
Lemma handleMotionData_tracking (seen : Render) (now raw : string)
    (data : Data.t) (st : State) :
  mode st = tracking ->
  measurements (handleMotionData seen now (Value raw (Payload data)) st) =
  measurements st ++
    [deviation (seen_calibration seen) (measurementCountRef st) data].
Proof.
  intros Hm. unfold handleMotionData.
  cbn [mode setLastRawData setLastParsedData]. rewrite Hm. reflexivity.
Qed.

(** One tracking sample delivered to the registered listener. *)
Lemma step_sample_tracking (st : State) (d : Delivery) :
  mode st = tracking ->
  let st' := step st (sample_event d) in
  mode st' = tracking /\
  measurements st' =
    measurements st ++
      [deviation (seen_calibration (listenerRender st))
                 (measurementCountRef st) (payload d)] /\
  measurementCountRef st' = S (measurementCountRef st) /\
  calibration st' = calibration st /\
  calibrationSamples st' = calibrationSamples st /\
  squatPhases st' = squatPhases st /\
  listenerRender st' = listenerRender st.
Proof.
  intros Hm. unfold step, sample_event, handleMotionData. cbn [fst snd].
  cbn [mode setLastRawData setLastParsedData]. rewrite Hm.
  cbn zeta. unfold addDebugMessage. cbn [mode setDebugMessages
    measurements measurementCountRef calibration calibrationSamples squatPhases
    listenerRender setMeasurements setMeasurementCountRef setCurrentX
    setCurrentY setCurrentZ setLastRawData setLastParsedData].
  repeat split. exact Hm.
Qed.

Lemma tracking_run (ds : list Delivery) :
  forall st : State,
  mode st = tracking ->
  let st' := run st (sample_events ds) in
  mode st' = tracking /\
  measurements st' =
    measurements st ++
      timeline_from (seen_calibration (listenerRender st))
                    (measurementCountRef st) ds /\
  measurementCountRef st' = (measurementCountRef st + List.length ds)%nat /\
  calibration st' = calibration st /\
  calibrationSamples st' = calibrationSamples st /\
  squatPhases st' = squatPhases st /\
  listenerRender st' = listenerRender st.
Proof.
  induction ds as [| d ds IH]; intros st Hm; simpl.
  - rewrite app_nil_r, Nat.add_0_r. repeat split. exact Hm.
  - destruct (step_sample_tracking st d Hm) as (S1 & S2 & S3 & S4 & S5 & S6 & S7).
    specialize (IH (step st (sample_event d)) S1). cbn zeta in IH.
    fold (sample_events ds) in *.
    destruct IH as (I1 & I2 & I3 & I4 & I5 & I6 & I7).
    rewrite I1, I2, I3, I4, I5, I6, I7, S2, S3, S4, S5, S6, S7.
    rewrite <- app_assoc. simpl. repeat split. lia.
Qed.

(** [connectBLE], from its first to its last stretch, leaves a session that
    has just entered calibration, whatever the state before. *)
Lemma connectBLE_fresh (now1 now2 : string) (audio : option string)
    (st : State) :
  fresh_calibrating (connectBLE_ready now2 audio (connectBLE_start now1 st)).
Proof. destruct audio; repeat split. Qed.

(** The listeners it registers are those of the render in which it was
    called; the stored baseline, timeline and phases are not touched. *)
Lemma connectBLE_listeners (now1 now2 : string) (audio : option string)
    (st : State) :
  let st' := connectBLE_ready now2 audio (connectBLE_start now1 st) in
  listenerRender st' = render_of st /\
  calibration st' = calibration st /\
  measurements st' = measurements st /\
  squatPhases st' = squatPhases st.
Proof. destruct audio; repeat split. Qed.

(** ** Calibration *)

(** C1: in a session that has just entered calibration, after exactly ten
    raw samples the stored baseline is, on each axis, the arithmetic mean of
    the ten sample values; a second such session fed the same ten payloads
    (at other clock readings, from other raw texts) stores the same
    baseline. *)
Theorem calibration_baseline_is_mean (st st2 : State) (ds ds2 : list Delivery) :
  mode st = calibrating -> calibrationSamples st = [] ->
  mode st2 = calibrating -> calibrationSamples st2 = [] ->
  List.length ds = 10%nat ->
  map payload ds2 = map payload ds ->
  calibration (run st (sample_events ds)) =
    Calibration.mk (mean (map (fun d => Data.x (payload d)) ds))
                   (mean (map (fun d => Data.y (payload d)) ds))
                   (mean (map (fun d => Data.z (payload d)) ds)) /\
  calibration (run st2 (sample_events ds2)) =
    calibration (run st (sample_events ds)).
Proof.
  intros Hm Hs Hm2 Hs2 Hlen Hsame.
  assert (Hmean : forall (s : State) (l : list Delivery),
            mode s = calibrating -> calibrationSamples s = [] ->
            List.length l = 10%nat ->
            calibration (run s (sample_events l)) =
              Calibration.mk (mean (map Data.x (map payload l)))
                             (mean (map Data.y (map payload l)))
                             (mean (map Data.z (map payload l)))).
  { intros s l Hms Hss Hl.
    destruct (calibration_completes l s Hms) as (_ & _ & _ & _ & Hcal & _).
    - rewrite Hss, Hl. reflexivity.
    - intros ->. discriminate Hl.
    - rewrite Hcal, Hss. simpl app.
      destruct (buffer_from_axes (measurementCountRef s) l) as (Hx & Hy & Hz).
      rewrite Hx, Hy, Hz, !map_map. reflexivity. }
  split.
  - rewrite (Hmean st ds Hm Hs Hlen), !map_map. reflexivity.
  - rewrite (Hmean st ds Hm Hs Hlen), (Hmean st2 ds2 Hm2 Hs2).
    + rewrite Hsame. reflexivity.
    + rewrite <- (length_map payload), Hsame, length_map. exact Hlen.
Qed.

(** C2: while the mode is [calibrating] every raw sample makes the buffer
    one longer; in a session that has just entered calibration the mode is
    still [calibrating] after any number of samples below ten, and after the
    tenth it is [tracking] with an empty timeline. *)
Theorem calibration_count_and_transition (st0 st : State) (d : Delivery)
    (ds : list Delivery) :
  mode st0 = calibrating ->
  mode st = calibrating -> calibrationSamples st = [] ->
  (List.length ds <= 10)%nat ->
  List.length (calibrationSamples (step st0 (sample_event d))) =
    S (List.length (calibrationSamples st0)) /\
  List.length (calibrationSamples (run st (sample_events ds))) = List.length ds /\
  ((List.length ds < 10)%nat -> mode (run st (sample_events ds)) = calibrating) /\
  (List.length ds = 10%nat ->
     mode (run st (sample_events ds)) = tracking /\
     measurements (run st (sample_events ds)) = []).
Proof.
  intros Hm0 Hm Hs Hlen. split; [| split; [| split]].
  - rewrite (step_sample_calibrating st0 d Hm0).
    set (s0 := setLastParsedData _ _).
    destruct (handleCalibrationData_effect (clock d) (payload d) s0) as (H & _).
    rewrite H, length_app. simpl. lia.
  - destruct (Nat.eq_dec (List.length ds) 10) as [E | Hne].
    + destruct (calibration_completes ds st Hm) as (_ & H & _).
      * rewrite Hs, E. reflexivity.
      * intros ->. discriminate E.
      * rewrite H, Hs. simpl. apply buffer_from_length.
    + destruct (calibrating_run ds st Hm) as (_ & H & _).
      * rewrite Hs. simpl. lia.
      * rewrite H, Hs. simpl. apply buffer_from_length.
  - intros Hlt.
    destruct (calibrating_run ds st Hm) as (H & _); [| exact H].
    rewrite Hs. simpl. lia.
  - intros E.
    destruct (calibration_completes ds st Hm) as (H1 & _ & _ & H2 & _).
    + rewrite Hs, E. reflexivity.
    + intros ->. discriminate E.
    + split; assumption.
Qed.

(** ** Live deviation *)

(** C3, as the component behaves: [connectBLE] puts the counter behind the
    time stamps to zero, each of the ten calibration samples advances it,
    and nothing resets it on entering [tracking]; so the counter is at ten
    when tracking starts and the [i]-th measurement of the timeline carries
    the time stamp [(10 + i) * 0.05], not [i * 0.05]. *)
Theorem tracking_timestamps_start_after_calibration (st : State)
    (cs ts : list Delivery) :
  fresh_calibrating st ->
  List.length cs = 10%nat ->
  let st1 := run st (sample_events cs) in
  let st2 := run st1 (sample_events ts) in
  mode st1 = tracking /\ measurementCountRef st1 = 10%nat /\
  List.length (measurements st2) = List.length ts /\
  forall i, (i < List.length ts)%nat ->
    t_at (measurements st2) i = INR (10 + i) * SAMPLE_PERIOD /\
    t_at (measurements st2) i <> INR i * SAMPLE_PERIOD.
Proof.
  intros (Hm & Hs & Hc) Hlen st1 st2.
  destruct (calibration_completes cs st Hm) as (H1 & _ & H3 & H4 & _).
  { rewrite Hs, Hlen. reflexivity. }
  { intros ->. discriminate Hlen. }
  fold st1 in H1, H3, H4. rewrite Hc, Hlen in H3. simpl in H3.
  destruct (tracking_run ts st1 H1) as (_ & T2 & _).
  fold st2 in T2. rewrite H4, H3 in T2. simpl in T2.
  split; [exact H1 |]. split; [exact H3 |].
  split; [rewrite T2; apply timeline_from_length |].
  intros i Hi. unfold t_at. rewrite T2.
  rewrite (timeline_from_nth _ ts 10 i (mkDelivery EmptyString EmptyString
                                          (Data.mk 0 0 0)) Hi).
  unfold deviation. cbn [Measurement.timestamp]. split; [reflexivity |].
  rewrite plus_INR. unfold SAMPLE_PERIOD. simpl INR. lra.
Qed.

(** C5, as the component behaves: [handleMotionData] subtracts the
    [calibration] of the render it is a closure of, and the one that
    receives the samples is the closure registered by [connectBLE], of the
    render in which [connectBLE] was called.  So after connecting from a
    state [st0] and ten calibration samples, the stored baseline is the mean
    of the samples, while the measurement appended for a tracking sample is
    the sample minus the baseline that [st0] held, which is [{0, 0, 0}] on a
    fresh mount. *)
Theorem tracking_deviation_uses_listener_calibration (st0 : State)
    (now1 now2 : string) (audio : option string) (cs : list Delivery)
    (d : Delivery) :
  List.length cs = 10%nat ->
  let st :=
    run st0 ([(now1, ConnectStart); (now2, ConnectReady audio)]
               ++ sample_events cs) in
  mode st = tracking /\
  calibration st = baseline_of cs /\
  (exists m : Measurement.t,
    measurements (step st (sample_event d)) = [m] /\
    Measurement.x m = Data.x (payload d) - Calibration.x (calibration st0) /\
    Measurement.y m = Data.y (payload d) - Calibration.y (calibration st0) /\
    Measurement.z m = Data.z (payload d) - Calibration.z (calibration st0)) /\
  (forall seen : Render,
     measurements
       (handleMotionData seen (clock d)
          (Value (rawValue d) (Payload (payload d))) st) =
     [Measurement.mk
        (Data.x (payload d) - Calibration.x (seen_calibration seen))
        (Data.y (payload d) - Calibration.y (seen_calibration seen))
        (Data.z (payload d) - Calibration.z (seen_calibration seen))
        (INR 10 * SAMPLE_PERIOD)]).
Proof.
  intros Hlen. cbn zeta. rewrite run_app.
  change (run st0 [(now1, ConnectStart); (now2, ConnectReady audio)])
    with (connectBLE_ready now2 audio (connectBLE_start now1 st0)).
  destruct (connectBLE_fresh now1 now2 audio st0) as (Hm & Hs & Hc).
  destruct (connectBLE_listeners now1 now2 audio st0) as (Hl & _).
  remember (connectBLE_ready now2 audio (connectBLE_start now1 st0)) as st1
    eqn:E1.
  destruct (calibration_completes cs st1 Hm) as (C1 & _ & C3 & C4 & C5 & _ & C7).
  { rewrite Hs, Hlen. reflexivity. }
  { intros ->. discriminate Hlen. }
  remember (run st1 (sample_events cs)) as st eqn:E.
  rewrite Hs in C5. simpl app in C5.
  destruct (buffer_from_axes (measurementCountRef st1) cs) as (Hx & Hy & Hz).
  rewrite Hx, Hy, Hz in C5. fold (baseline_of cs) in C5.
  split; [exact C1 |]. split; [exact C5 |]. split.
  - destruct (step_sample_tracking st d C1) as (_ & T & _).
    rewrite C4, C7, Hl in T.
    exists (deviation (calibration st0) (measurementCountRef st) (payload d)).
    split; [exact T |]. repeat split.
  - intros seen. rewrite (handleMotionData_tracking seen _ _ _ st C1).
    rewrite C4, C3, Hc, Hlen. reflexivity.
Qed.

(** ** Final statistics *)

Lemma toFixed_nonneg (x : R) (f : nat) (n : Z) :
  0 <= x -> x < 10 ^ 21 ->
  IZR n <= x * 10 ^ f + / 2 < IZR n + 1 ->
  fixed x f = fixed_digits n f.
Proof.
  intros H0 H21 Hn. unfold fixed, toFixed.
  destruct (Rlt_dec x 0) as [Hneg | _]; [lra |].
  destruct (Rle_dec (10 ^ 21) x) as [Hbig | _]; [lra |].
  rewrite <- (Int_part_spec (x * 10 ^ f + / 2) n) by lra.
  reflexivity.
Qed.

Lemma horizontalDeviation_nonneg (m : Measurement.t) :
  0 <= horizontalDeviation m.
Proof. unfold horizontalDeviation. apply sqrt_pos. Qed.

Lemma at_index_last (ms : list Measurement.t) (d : Measurement.t) :
  ms <> [] -> at_index ms (List.length ms - 1) = last ms d.
Proof.
  unfold at_index.
  induction ms as [| m ms IH]; intros Hne; [congruence |].
  destruct ms as [| m' ms]; [reflexivity |].
  simpl List.length. replace (S (S (List.length ms)) - 1)%nat
    with (S (List.length (m' :: ms) - 1)) by (simpl; lia).
  change (nth (List.length (m' :: ms) - 1) (m' :: ms)
              (Measurement.mk 0 0 0 0) = last (m' :: ms) d).
  apply IH. discriminate.
Qed.

(** The two accumulators of [calculateFinalStats] after the [forEach]. *)
Lemma stats_fold (ms : list Measurement.t) :
  forall a b : R,
  let acc := fold_left stats_body ms (a, b) in
  let hs := map horizontalDeviation ms in
  snd acc = b + Rsum hs /\
  a <= fst acc /\
  (forall h, In h hs -> h <= fst acc) /\
  (fst acc = a \/ In (fst acc) hs).
Proof.
  induction ms as [| m ms IH]; intros a b.
  - simpl. split; [lra | split; [lra | split; [intros h [] | now left]]].
  - cbn zeta. cbn [fold_left map].
    change (stats_body (a, b) m)
      with (Rmax a (horizontalDeviation m), b + horizontalDeviation m).
    specialize (IH (Rmax a (horizontalDeviation m)) (b + horizontalDeviation m)).
    cbn zeta in IH. destruct IH as (Hsum & Hle & Hub & Hin).
    pose proof (Rmax_l a (horizontalDeviation m)).
    pose proof (Rmax_r a (horizontalDeviation m)).
    split; [| split; [| split]].
    + rewrite Hsum. unfold Rsum. simpl. lra.
    + lra.
    + intros h [<- | Hh]; [lra | now apply Hub].
    + destruct Hin as [E | Hin]; [| right; right; exact Hin].
      rewrite E. apply Rmax_case; [now left | right; now left].
Qed.

(** C6: on a non-empty timeline [calculateFinalStats] stores the statistics
    of the horizontal deviation [sqrt (x^2 + z^2)] (without [y]):
    [maxDeviation] is its largest value over the timeline and [avgDeviation]
    its arithmetic mean, both written with two decimals, [samples] is the
    length of the timeline and [duration] is the time stamp of the last
    measurement written with two decimals; the measurements [{x:3, z:4}]
    and [{x:0, z:0}] give "5.00", "2.50" and 2 samples.  The timeline is the
    [measurements] of the render the callback belongs to. *)
Theorem final_stats_of_timeline (seen : Render) (now : string) (st : State) :
  seen_measurements seen <> [] ->
  let ms := seen_measurements seen in
  let hs := map horizontalDeviation ms in
  (exists M : R,
     In M hs /\ (forall h, In h hs -> h <= M) /\
     finalStats (calculateFinalStats seen now st) =
       Some (mkStats (fixed M 2) (fixed (mean hs) 2)
               (fixed (Measurement.timestamp
                         (last ms (Measurement.mk 0 0 0 0))) 2)
               (List.length ms))) /\
  (forall y0 t0 y1 t1 : R,
     ms = [Measurement.mk 3 y0 4 t0; Measurement.mk 0 y1 0 t1] ->
     finalStats (calculateFinalStats seen now st) =
       Some (mkStats "5.00" "2.50" (fixed t1 2) 2)).
Proof.
  intros Hne. cbn zeta.
  remember (seen_measurements seen) as ms eqn:Hms.
  set (hs := map horizontalDeviation ms).
  assert (Hstats :
    finalStats (calculateFinalStats seen now st) =
      Some (mkStats (fixed (fst (fold_left stats_body ms (0, 0))) 2)
              (fixed (snd (fold_left stats_body ms (0, 0))
                      / INR (List.length ms)) 2)
              (fixed (Measurement.timestamp
                        (at_index ms (List.length ms - 1))) 2)
              (List.length ms))).
  { unfold calculateFinalStats. rewrite <- Hms.
    destruct ms as [| m ms']; [congruence | reflexivity]. }
  destruct (stats_fold ms 0 0) as (Hsum & Hle & Hub & Hin). fold hs in Hsum, Hub, Hin.
  split.
  - exists (fst (fold_left stats_body ms (0, 0))).
    split; [| split; [exact Hub |]].
    + destruct Hin as [E | Hin]; [| exact Hin].
      (* the maximum is 0: then the first deviation is 0 as well *)
      rewrite E. unfold hs. destruct ms as [| m ms'] eqn:Ems; [congruence |].
      simpl. left.
      assert (horizontalDeviation m <= 0).
      { rewrite <- E. apply Hub. unfold hs. simpl. now left. }
      pose proof (horizontalDeviation_nonneg m). lra.
    + rewrite Hstats, Hsum.
      rewrite (at_index_last ms (Measurement.mk 0 0 0 0) Hne).
      unfold mean, hs. rewrite length_map.
      replace (0 + Rsum (map horizontalDeviation ms))
        with (Rsum (map horizontalDeviation ms)) by lra.
      reflexivity.
  - intros y0 t0 y1 t1 Ems. rewrite Hstats, Ems.
    assert (H5 : horizontalDeviation (Measurement.mk 3 y0 4 t0) = 5).
    { unfold horizontalDeviation, Math_pow2. simpl.
      replace (3 * (3 * 1) + 4 * (4 * 1)) with (5 * 5) by lra.
      apply sqrt_square. lra. }
    assert (H0 : horizontalDeviation (Measurement.mk 0 y1 0 t1) = 0).
    { unfold horizontalDeviation, Math_pow2. simpl.
      replace (0 * (0 * 1) + 0 * (0 * 1)) with 0 by lra.
      apply sqrt_0. }
    simpl fold_left. unfold stats_body. cbn [fst snd].
    rewrite H5, H0.
    rewrite (Rmax_right 0 5) by lra. rewrite (Rmax_left 5 0) by lra.
    cbn [List.length at_index nth Nat.sub Measurement.timestamp].
    replace ((0 + 5 + 0) / INR 2) with (5 / 2) by (simpl; lra).
    rewrite (toFixed_nonneg 5 2 500), (toFixed_nonneg (5 / 2) 2 250);
      try (simpl; lra).
    reflexivity.
Qed.

(** C8: with an empty timeline [calculateFinalStats] returns at once: the
    state, and with it the statistics stored before, is what it was, and the
    quotient by the length of the timeline is never formed; stopping or
    losing the connection with an empty timeline does not call it at all. *)
Theorem final_stats_empty_timeline (seen : Render) (now : string)
    (audio : option string) (st : State) :
  seen_measurements seen = [] ->
  calculateFinalStats seen now st = st /\
  finalStats (stopTracking_finish seen now audio st) = finalStats st /\
  finalStats (handleDisconnect seen now st) = finalStats st /\
  (measurements st = [] ->
   finalStats (stopTracking now audio st) = finalStats st).
Proof.
  intros Hms. split; [| split; [| split]].
  - unfold calculateFinalStats. rewrite Hms. reflexivity.
  - unfold stopTracking_finish, endOfSession. rewrite Hms.
    destruct audio; reflexivity.
  - unfold handleDisconnect, endOfSession. rewrite Hms. reflexivity.
  - intros Hst. unfold stopTracking, stopTracking_finish, endOfSession, render_of.
    cbn [seen_measurements]. rewrite Hst. destruct audio; reflexivity.
Qed.

(** ** Squat phases *)

(** C4, amended: on three or more measurements, an interior index is a
    candidate when its [z] is strictly below both neighbours; the running
    [maxDepth] starts at [0] and is replaced only by a candidate of strictly
    larger magnitude, so a candidate with [z = 0] is never kept.  When the
    first candidate of largest magnitude has a non-zero [z], the result is
    its signed [z] as [maxDepth] and its time stamp as [bottomPoint]; there
    is such a candidate as soon as one candidate has a non-zero [z]; when
    every candidate has [z = 0] the result is [{null, 0}].  The z-values
    [0, -1, -5, -2, 0] at time stamps [0, 0.05, 0.10, 0.15, 0.20] give
    [bottomPoint = 0.10] and [maxDepth = -5]. *)
Theorem squat_bottom_is_first_deepest (data : list Measurement.t) (j : nat) :
  (3 <= List.length data)%nat ->
  (deepest_first data j -> z_at data j <> 0 ->
   detectSquatPhases data =
     Some (mkSquatPhases (Some (t_at data j)) (z_at data j))) /\
  ((exists i, candidate data i /\ z_at data i <> 0) ->
   exists k, deepest_first data k /\ z_at data k <> 0 /\
     detectSquatPhases data =
       Some (mkSquatPhases (Some (t_at data k)) (z_at data k))) /\
  ((forall i, candidate data i -> z_at data i = 0) ->
   detectSquatPhases data = Some (mkSquatPhases None 0)) /\
  (map Measurement.z data = [0; -1; -5; -2; 0] ->
   map Measurement.timestamp data = [0; 5 / 100; 10 / 100; 15 / 100; 20 / 100] ->
   detectSquatPhases data = Some (mkSquatPhases (Some (10 / 100)) (-5))).
Proof.
  intros Hlen.
  assert (Hgen : forall k, deepest_first data k -> z_at data k <> 0 ->
            detectSquatPhases data =
              Some (mkSquatPhases (Some (t_at data k)) (z_at data k))).
  { intros k Hk Hnz.
    destruct (detectSquatPhases_cases data Hlen)
      as [[_ Hz] | (j' & Hj' & _ & Hres)].
    - destruct Hk as (Hc & _). elim Hnz. now apply Hz.
    - rewrite (deepest_first_unique data k j' Hk Hj'). exact Hres. }
  split; [apply Hgen |]. split; [| split].
  - intros (i & Hi & Hnz).
    destruct (detectSquatPhases_cases data Hlen)
      as [[_ Hz] | (k & Hk & Hnzk & Hres)].
    + elim Hnz. now apply Hz.
    + exists k. split; [exact Hk | split; [exact Hnzk | exact Hres]].
  - intros Hz.
    destruct (detectSquatPhases_cases data Hlen)
      as [[Hres _] | (j' & (Hc & _) & Hnz & _)]; [exact Hres |].
    elim Hnz. now apply Hz.
  - intros Hzs Hts.
    assert (Z : forall i, z_at data i = nth i [0; -1; -5; -2; 0] 0).
    { intros i. unfold z_at, at_index. rewrite <- Hzs.
      exact (eq_sym (map_nth Measurement.z data (Measurement.mk 0 0 0 0) i)). }
    assert (T : t_at data 2 = 10 / 100).
    { unfold t_at, at_index.
      rewrite <- (map_nth Measurement.timestamp data (Measurement.mk 0 0 0 0)).
      rewrite Hts. reflexivity. }
    assert (L : List.length data = 5%nat).
    { rewrite <- (length_map Measurement.z), Hzs. reflexivity. }
    rewrite (Hgen 2%nat).
    + rewrite T, (Z 2%nat). reflexivity.
    + assert (C2 : candidate data 2).
      { unfold candidate. rewrite L, !Z. simpl. repeat split; (lia || lra). }
      split; [exact C2 |].
      assert (A : forall i, candidate data i -> i = 2%nat).
      { intros i (H1 & H2 & H3 & H4). rewrite L in H2. rewrite !Z in H3, H4.
        destruct i as [| [| [| [| i]]]]; try lia; simpl in H3, H4; lra. }
      split; intros i Hi; rewrite (A i Hi); [lra | lia].
    + rewrite (Z 2%nat). simpl. lra.
Qed.

(** C10: on three or more measurements the result has [bottomPoint = null]
    exactly when [maxDepth = 0]; without a strict interior local minimum of
    [z], as on a monotone [z], the result is [{null, 0}]; and a bottom, when
    there is one, is at a candidate whose [z] is not [0]. *)
Theorem squat_bottom_none_iff_depth_zero (data : list Measurement.t) :
  (3 <= List.length data)%nat ->
  exists r : SquatPhases,
    detectSquatPhases data = Some r /\
    (bottomPoint r = None <-> maxDepth r = 0) /\
    ((forall i, ~ candidate data i) -> r = mkSquatPhases None 0) /\
    ((forall i, (i + 1 < List.length data)%nat ->
                z_at data i <= z_at data (i + 1)) ->
     r = mkSquatPhases None 0) /\
    ((forall i, (i + 1 < List.length data)%nat ->
                z_at data (i + 1) <= z_at data i) ->
     r = mkSquatPhases None 0) /\
    (forall t, bottomPoint r = Some t ->
       exists j, candidate data j /\ z_at data j <> 0 /\
                 t = t_at data j /\ maxDepth r = z_at data j).
Proof.
  intros Hlen.
  destruct (detectSquatPhases_cases data Hlen)
    as [[Hres Hz] | (j & (Hc & Hj) & Hnz & Hres)].
  - exists (mkSquatPhases None 0). split; [exact Hres |]. simpl.
    split; [tauto |]. repeat split; try reflexivity. discriminate.
  - exists (mkSquatPhases (Some (t_at data j)) (z_at data j)).
    split; [exact Hres |]. simpl.
    split; [split; [discriminate | intros E; contradiction] |].
    split; [intros Hno; elim (Hno j Hc) |].
    split; [| split].
    + intros Hup. destruct Hc as (H1 & H2 & H3 & _).
      assert (z_at data (j - 1) <= z_at data (j - 1 + 1)) by (apply Hup; lia).
      replace (j - 1 + 1)%nat with j in * by lia. lra.
    + intros Hdown. destruct Hc as (H1 & H2 & _ & H4).
      assert (z_at data (j + 1) <= z_at data j) by (apply Hdown; lia).
      lra.
    + intros t Ht. injection Ht as <-. exists j. repeat split; try assumption;
        apply Hc.
Qed.

(** What the end of a session does to the stored phases. *)
Lemma endOfSession_phases (seen : Render) (now : string) (st : State) :
  measurements (endOfSession seen now st) = measurements st /\
  stopRender (endOfSession seen now st) = stopRender st /\
  squatPhases (endOfSession seen now st) =
    match detectSquatPhases (seen_measurements seen) with
    | Some phases => phases
    | None => squatPhases st
    end.
Proof.
  unfold endOfSession, calculateFinalStats.
  destruct (seen_measurements seen) as [| m ms] eqn:E; [repeat split |].
  destruct (detectSquatPhases (m :: ms)); cbn; repeat split.
Qed.

Lemma detectSquatPhases_short (data : list Measurement.t) :
  (List.length data < 3)%nat -> detectSquatPhases data = None.
Proof.
  intros H. unfold detectSquatPhases.
  destruct (Nat.ltb_spec (List.length data) 3); [reflexivity | lia].
Qed.

Lemma stopTracking_finish_phases (seen : Render) (now : string)
    (audio : option string) (st : State) :
  measurements (stopTracking_finish seen now audio st) = measurements st /\
  squatPhases (stopTracking_finish seen now audio st) =
    match detectSquatPhases (seen_measurements seen) with
    | Some phases => phases
    | None => squatPhases st
    end.
Proof.
  unfold stopTracking_finish.
  destruct (endOfSession_phases seen now st) as (F1 & F2 & F3).
  destruct audio; cbn; rewrite ?F1, ?F3; repeat split.
Qed.

Lemma handleDisconnect_phases (seen : Render) (now : string) (st : State) :
  measurements (handleDisconnect seen now st) = measurements st /\
  stopRender (handleDisconnect seen now st) = stopRender st /\
  squatPhases (handleDisconnect seen now st) =
    match detectSquatPhases (seen_measurements seen) with
    | Some phases => phases
    | None => squatPhases st
    end.
Proof.
  unfold handleDisconnect.
  set (st0 := addDebugMessage now "Device disconnected" st).
  destruct (endOfSession_phases seen now st0) as (F1 & F2 & F3).
  change (measurements st0) with (measurements st) in *.
  change (squatPhases st0) with (squatPhases st) in *.
  change (stopRender st0) with (stopRender st) in *.
  cbn. split; [exact F1 | split; [exact F2 | exact F3]].
Qed.

(** C7, amended: on fewer than three measurements [detectSquatPhases]
    returns [null], and stopping or losing the connection then leaves the
    stored phases as they were: [{null, 0}] when nothing was stored before,
    as in the first session of the component. *)
Theorem short_timeline_keeps_stored_phases (seen : Render) (now : string)
    (audio : option string) (st : State) :
  (List.length (seen_measurements seen) < 3)%nat ->
  detectSquatPhases (seen_measurements seen) = None /\
  squatPhases (stopTracking_finish seen now audio st) = squatPhases st /\
  squatPhases (handleDisconnect seen now st) = squatPhases st /\
  (squatPhases st = squatPhases initialState ->
   squatPhases (stopTracking_finish seen now audio st) = mkSquatPhases None 0) /\
  ((List.length (measurements st) < 3)%nat ->
   squatPhases (stopTracking now audio st) = squatPhases st).
Proof.
  intros Hlen.
  pose proof (detectSquatPhases_short _ Hlen) as Hnone.
  destruct (stopTracking_finish_phases seen now audio st) as (_ & Hs).
  destruct (handleDisconnect_phases seen now st) as (_ & _ & Hd).
  rewrite Hnone in Hs, Hd.
  split; [exact Hnone |]. split; [exact Hs |]. split; [exact Hd |]. split.
  - intros E. rewrite Hs, E. reflexivity.
  - intros Hst. unfold stopTracking.
    destruct (stopTracking_finish_phases (render_of st) now audio
                (stopTracking_start now st)) as (_ & H).
    rewrite H. unfold render_of. cbn [seen_measurements].
    rewrite (detectSquatPhases_short _ Hst). reflexivity.
Qed.

(** ** Debug log *)

Lemma str_split_nonempty (c : ascii) (s : string) : str_split c s <> [].
Proof.
  destruct s as [| a s]; simpl; [discriminate |].
  destruct (Ascii.eqb a c); [discriminate |].
  destruct (str_split c s); discriminate.
Qed.

(** A prefix without the separator stays in the first piece. *)
Lemma first_piece_app (c : ascii) (a b : string) :
  without c a = true ->
  nth 0 (str_split c (a ++ b)) EmptyString =
  (a ++ nth 0 (str_split c b) EmptyString)%string.
Proof.
  induction a as [| x a IH]; intros Hw; simpl; [reflexivity |].
  simpl in Hw. apply andb_true_iff in Hw. destruct Hw as [Hx Ha].
  apply negb_true_iff in Hx. rewrite Hx.
  specialize (IH Ha).
  destruct (str_split c (a ++ b)) as [| piece pieces] eqn:E.
  - elim (str_split_nonempty c (a ++ b) E).
  - simpl in *. now rewrite IH.
Qed.

(** The piece after the first separator starts the second piece. *)
Lemma second_piece_app (c : ascii) (a b : string) :
  without c a = true ->
  nth 1 (str_split c (a ++ String c b)) EmptyString =
  nth 0 (str_split c b) EmptyString.
Proof.
  induction a as [| x a IH]; intros Hw; simpl.
  - rewrite Ascii.eqb_refl. reflexivity.
  - simpl in Hw. apply andb_true_iff in Hw. destruct Hw as [Hx Ha].
    apply negb_true_iff in Hx. rewrite Hx.
    specialize (IH Ha).
    destruct (str_split c (a ++ String c b)) as [| piece pieces] eqn:E.
    + elim (str_split_nonempty c _ E).
    + exact IH.
Qed.

Lemma append_empty_r (s : string) : (s ++ EmptyString)%string = s.
Proof. induction s as [| a s IH]; simpl; [reflexivity | now rewrite IH]. Qed.

(** On an ISO string [date T time . rest] the prefix is the time of day. *)
Lemma timeOfDay_iso (date time rest : string) :
  without "T" date = true -> without "T" time = true ->
  without "." time = true ->
  timeOfDay (date ++ "T" ++ time ++ "." ++ rest) = time.
Proof.
  intros Hd Ht Hp. unfold timeOfDay.
  change (date ++ "T" ++ time ++ "." ++ rest)%string
    with (date ++ String "T" (time ++ String "." rest))%string.
  rewrite (second_piece_app "T" date _ Hd).
  rewrite (first_piece_app "T" time _ Ht).
  assert (Hdot : exists tail,
            nth 0 (str_split "T" (String "." rest)) EmptyString
            = String "." tail).
  { simpl. destruct (str_split "T" rest) as [| piece pieces];
      [exists EmptyString | exists piece]; reflexivity. }
  destruct Hdot as (tail & ->).
  rewrite (first_piece_app "." time _ Hp).
  simpl. apply append_empty_r.
Qed.

Lemma log_all_from (entries : list (string * string)) :
  forall st : State,
  (List.length (debugMessages st) <= 5)%nat ->
  debugMessages (log_all entries st) =
  slice_last 5 (debugMessages st ++ map entry_of entries).
Proof.
  induction entries as [| e entries IH]; intros st Hlen; simpl.
  - rewrite app_nil_r. symmetry. now apply slice_last_all.
  - unfold log_all in IH. rewrite IH.
    + unfold addDebugMessage. cbn [debugMessages setDebugMessages].
      rewrite slice_last_app, <- app_assoc. reflexivity.
    + unfold addDebugMessage. cbn [debugMessages setDebugMessages].
      rewrite slice_last_length. lia.
Qed.

(** C9: after any [n] messages appended to the empty log of a fresh
    component, the log holds the last [min n 5] entries in arrival order,
    each entry being the time-of-day part of the clock reading, [" - "] and
    the message; on an ISO clock reading that part is [HH:MM:SS]; after
    eight messages the log is the last five. *)
Theorem debug_log_keeps_last_five (entries : list (string * string)) :
  debugMessages (log_all entries initialState) =
    slice_last 5 (map entry_of entries) /\
  List.length (debugMessages (log_all entries initialState)) =
    Nat.min (List.length entries) 5 /\
  (forall e1 e2 e3 e4 e5 e6 e7 e8,
     entries = [e1; e2; e3; e4; e5; e6; e7; e8] ->
     debugMessages (log_all entries initialState) =
       [entry_of e4; entry_of e5; entry_of e6; entry_of e7; entry_of e8]) /\
  (forall date time rest message,
     without "T" date = true -> without "T" time = true ->
     without "." time = true ->
     entry_of ((date ++ "T" ++ time ++ "." ++ rest)%string, message) =
       (time ++ " - " ++ message)%string).
Proof.
  assert (H : debugMessages (log_all entries initialState) =
              slice_last 5 (map entry_of entries)).
  { rewrite log_all_from by (simpl; lia). reflexivity. }
  split; [exact H |]. split; [| split].
  - rewrite H, slice_last_length, length_map. reflexivity.
  - intros e1 e2 e3 e4 e5 e6 e7 e8 E. rewrite H, E. reflexivity.
  - intros date time rest message Hd Ht Hp.
    unfold entry_of, debugEntry. cbn [fst snd].
    now rewrite timeOfDay_iso.
Qed.

(** ** Whole sessions *)

(** The timeline and the stored phases at the end of a session, from any
    state of the component.  The deviations are taken from the baseline the
    state held before the session, and the disconnect listener analyses the
    timeline the state held before the session. *)
Lemma session_outcome (st : State) (now : string) (cs ts : list Delivery) :
  List.length cs = 10%nat ->
  let st' := run st (session now cs ts) in
  let tl := timeline_from (calibration st) 10 ts in
  measurements st' = tl /\
  (forall phases, detectSquatPhases tl = Some phases ->
                  squatPhases st' = phases) /\
  (detectSquatPhases tl = None ->
   forall phases, detectSquatPhases (measurements st) = Some phases ->
                  squatPhases st' = phases) /\
  (detectSquatPhases tl = None -> detectSquatPhases (measurements st) = None ->
   squatPhases st' = squatPhases st).
Proof.
  intros Hlen. unfold session. cbn zeta. rewrite !run_app.
  change (run st [(now, ConnectStart); (now, ConnectReady None)])
    with (connectBLE_ready now None (connectBLE_start now st)).
  destruct (connectBLE_fresh now now None st) as (Hm & Hs & Hc).
  destruct (connectBLE_listeners now now None st) as (Hl & _ & _ & Hq).
  remember (connectBLE_ready now None (connectBLE_start now st)) as st0 eqn:E0.
  destruct (calibration_completes cs st0 Hm) as (C1 & _ & C3 & C4 & _ & C6 & C7).
  { rewrite Hs, Hlen. reflexivity. }
  { intros ->. discriminate Hlen. }
  remember (run st0 (sample_events cs)) as st1 eqn:E1.
  rewrite Hc, Hlen in C3. simpl Nat.add in C3.
  destruct (tracking_run ts st1 C1) as (_ & T2 & _ & _ & _ & T6 & T7).
  remember (run st1 (sample_events ts)) as st2 eqn:E2.
  rewrite C3, C4, C7, Hl in T2. simpl app in T2. cbn [render_of seen_calibration] in T2.
  change (run st2 [(now, StopStart); (now, Disconnect); (now, StopFinish None)])
    with (step (step (step st2 (now, StopStart)) (now, Disconnect))
               (now, StopFinish None)).
  unfold step. cbn [fst snd].
  remember (stopTracking_start now st2) as st3 eqn:E3.
  assert (H3 : stopRender st3 = render_of st2 /\
               listenerRender st3 = listenerRender st2 /\
               squatPhases st3 = squatPhases st2)
    by (rewrite E3; repeat split).
  destruct H3 as (R3 & L3 & Q3).
  destruct (handleDisconnect_phases (listenerRender st3) now st3)
    as (_ & R4 & Q4).
  remember (handleDisconnect (listenerRender st3) now st3) as st4 eqn:E4.
  rewrite R4, R3.
  destruct (stopTracking_finish_phases (render_of st2) now None st4)
    as (M5 & Q5).
  change (seen_measurements (render_of st2)) with (measurements st2) in Q5.
  rewrite T2 in Q5.
  rewrite L3, T7, C7, Hl in Q4.
  change (seen_measurements (render_of st)) with (measurements st) in Q4.
  rewrite Q3, T6, C6, Hq in Q4.
  assert (M4 : measurements st4 = measurements st2).
  { rewrite E4. destruct (handleDisconnect_phases (listenerRender st3) now st3)
      as (M & _). rewrite M, E3. reflexivity. }
  rewrite M5, M4, T2.
  split; [reflexivity |]. split; [| split].
  - intros phases E. rewrite Q5, E. reflexivity.
  - intros En phases E. rewrite Q5, En, Q4, E. reflexivity.
  - intros En En'. rewrite Q5, En, Q4, En'. reflexivity.
Qed.

(** ** The debug log under every handler *)

Lemma addDebugMessage_log (now message : string) (st : State) :
  debugMessages (addDebugMessage now message st) =
  skipn (List.length (debugMessages st) + 1 - 5) (debugMessages st)
    ++ [debugEntry now message].
Proof.
  unfold addDebugMessage. cbn [debugMessages setDebugMessages].
  unfold slice_last. rewrite length_app, skipn_app. simpl List.length.
  replace (List.length (debugMessages st) + 1 - 5
           - List.length (debugMessages st))%nat with 0%nat by lia.
  reflexivity.
Qed.

Lemma addDebugMessage_bound (now message : string) (st : State) :
  (List.length (debugMessages (addDebugMessage now message st)) <= 5)%nat.
Proof.
  unfold addDebugMessage. cbn [debugMessages setDebugMessages].
  rewrite slice_last_length. lia.
Qed.

(** Closes a goal on the length of the log after some setters around an
    [addDebugMessage], or around the state itself. *)
Ltac log_bound :=
  cbn [debugMessages setMode setCalibration setCalibrationSamples
       setMeasurements setCurrentX setCurrentY setCurrentZ setFinalStats
       setError setCalibrationProgress setLastRawData setLastParsedData
       setSquatPhases setMeasurementCountRef setConnectRender
       setListenerRender setStopRender];
  first [ assumption | apply addDebugMessage_bound ].

Lemma playBeep_bound (now : string) (audio : option string) (frequency : R)
    (st : State) :
  (List.length (debugMessages st) <= 5)%nat ->
  (List.length (debugMessages (playBeep now audio frequency st)) <= 5)%nat.
Proof. intros H. destruct audio; simpl; [apply addDebugMessage_bound | exact H]. Qed.

Lemma endOfSession_bound (seen : Render) (now : string) (st : State) :
  (List.length (debugMessages st) <= 5)%nat ->
  (List.length (debugMessages (endOfSession seen now st)) <= 5)%nat.
Proof.
  intros H. unfold endOfSession, calculateFinalStats.
  destruct (seen_measurements seen) as [| m ms]; [exact H |].
  destruct (detectSquatPhases (m :: ms)); log_bound.
Qed.

Lemma step_log_bound (st : State) (ev : string * Event) :
  (List.length (debugMessages st) <= 5)%nat ->
  (List.length (debugMessages (step st ev)) <= 5)%nat.
Proof.
  intros H. destruct ev as [now [| | | | audio | message | event | | | audio | audio]];
    unfold step; cbn [fst snd].
  - unfold connectBLE_start, resetMeasurementCount. log_bound.
  - apply addDebugMessage_bound.
  - apply addDebugMessage_bound.
  - apply addDebugMessage_bound.
  - unfold connectBLE_ready. apply playBeep_bound. log_bound.
  - unfold connectBLE_catch. log_bound.
  - unfold handleMotionData.
    destruct event as [| raw [message | data]]; try log_bound.
    cbn [mode setLastRawData setLastParsedData].
    destruct (mode st); try log_bound.
    + unfold handleCalibrationData, REQUIRED_CALIBRATION_SAMPLES. cbn zeta.
      destruct (10 <=? _)%nat; log_bound.
  - unfold handleDisconnect. cbn [debugMessages setError setMode].
    apply endOfSession_bound, addDebugMessage_bound.
  - apply addDebugMessage_bound.
  - unfold stopTracking_finish. apply playBeep_bound.
    cbn [debugMessages setMode]. apply endOfSession_bound, H.
  - unfold stopTracking, stopTracking_finish. apply playBeep_bound.
    cbn [debugMessages setMode]. apply endOfSession_bound.
    apply addDebugMessage_bound.
Qed.

(** X1: whatever events the component handles, the debug log never grows
    beyond five entries; and a message logged in any state, whatever the
    length of the log before, ends up as the last entry after the most
    recent earlier ones, in their order. *)
Theorem debug_log_stays_bounded (st : State) (evs : list (string * Event))
    (now message : string) :
  (List.length (debugMessages st) <= 5)%nat ->
  (List.length (debugMessages (run st evs)) <= 5)%nat /\
  exists k : nat,
    debugMessages (addDebugMessage now message (run st evs)) =
      skipn k (debugMessages (run st evs)) ++ [debugEntry now message] /\
    (List.length (debugMessages (run st evs)) < 5 -> k = 0)%nat.
Proof.
  intros H.
  assert (Hrun : (List.length (debugMessages (run st evs)) <= 5)%nat).
  { revert st H. induction evs as [| ev evs IH]; intros st H; simpl;
      [exact H | apply IH, step_log_bound, H]. }
  split; [exact Hrun |].
  exists (List.length (debugMessages (run st evs)) + 1 - 5)%nat.
  split; [apply addDebugMessage_log | lia].
Qed.

(** ** Notifications that carry no sample, or come at the wrong time *)

Lemma step_view_congr (s1 s2 : State) (now : string) (n : Notification) :
  session_view s1 = session_view s2 ->
  session_view (step s1 (now, Motion n)) =
  session_view (step s2 (now, Motion n)).
Proof.
  intros H. destruct s1, s2. unfold session_view in H. cbn in H.
  injection H as -> -> -> -> -> -> -> -> -> -> -> ->.
  unfold step, handleMotionData. cbn [fst snd listenerRender].
  destruct n as [| raw [message | data]]; try reflexivity.
  cbn [mode setLastRawData setLastParsedData].
  destruct mode1; try reflexivity.
  unfold handleCalibrationData, REQUIRED_CALIBRATION_SAMPLES. cbn zeta.
  cbn [calibrationSamples setMeasurementCountRef setLastParsedData
       setLastRawData measurementCountRef].
  destruct (10 <=? _)%nat; reflexivity.
Qed.

Lemma step_view_no_payload (st : State) (now : string) (n : Notification) :
  (forall raw data, n <> Value raw (Payload data)) ->
  session_view (step st (now, Motion n)) = session_view st.
Proof.
  intros Hn. destruct n as [| raw [message | data]]; try reflexivity.
  elim (Hn raw data). reflexivity.
Qed.

Lemma step_view_not_listening (st : State) (now : string) (n : Notification) :
  mode st = idle \/ mode st = connecting ->
  session_view (step st (now, Motion n)) = session_view st.
Proof.
  intros Hm. destruct n as [| raw [message | data]]; try reflexivity.
  unfold step, handleMotionData. cbn [fst snd].
  cbn [mode setLastRawData setLastParsedData].
  destruct Hm as [-> | ->]; reflexivity.
Qed.

(** X2: notifications that arrive while the mode is [idle] or [connecting]
    are dropped: whatever they carry and however many they are, the mode,
    the baseline, the calibration buffer, the timeline, the live readout,
    the results and the counter stay as they were. *)
Theorem notifications_outside_a_session_are_dropped (st : State)
    (ns : list (string * Notification)) :
  mode st = idle \/ mode st = connecting ->
  session_view (run st (motion_events ns)) = session_view st.
Proof.
  revert st. induction ns as [| [now n] ns IH]; intros st Hm; [reflexivity |].
  simpl. pose proof (step_view_not_listening st now n Hm) as Hstep.
  rewrite IH; [exact Hstep |].
  assert (E : mode (step st (now, Motion n)) = mode st).
  { unfold session_view in Hstep. congruence. }
  rewrite E. exact Hm.
Qed.

(** X3: a notification without a [DataView], or whose text [JSON.parse]
    rejects, does not disturb the session: the run of any notifications
    leaves the mode, baseline, buffer, timeline, results and counter that
    the run of the parsed ones alone leaves.  The rejected text is reported
    in [error] and the session goes on. *)
Theorem unparsed_notifications_are_skipped (st : State)
    (ns : list (string * Notification)) (now raw message : string) :
  session_view (run st (motion_events ns)) =
    session_view (run st (sample_events (deliveries ns))) /\
  error (step st (now, Motion (Value raw (ParseError message)))) =
    Some ("Error parsing data: " ++ message)%string /\
  mode (step st (now, Motion (Value raw (ParseError message)))) = mode st.
Proof.
  split; [| split; reflexivity].
  assert (H : forall s1 s2, session_view s1 = session_view s2 ->
            session_view (run s1 (motion_events ns)) =
            session_view (run s2 (sample_events (deliveries ns)))).
  { induction ns as [| [t n] ns IH]; intros s1 s2 E; [exact E |].
    destruct n as [| r [m | data]]; simpl.
    - apply IH. rewrite <- E. apply step_view_no_payload. discriminate.
    - apply IH. rewrite <- E. apply step_view_no_payload. discriminate.
    - apply IH. apply (step_view_congr s1 s2 t _ E). }
  apply H. reflexivity.
Qed.

(** ** More on calibration *)

Lemma handleCalibrationData_progress (now : string) (d : Data.t) (st : State) :
  calibrationProgress (handleCalibrationData now d st) =
  Rmin (INR (S (List.length (calibrationSamples st))) / 10 * 100) 100.
Proof.
  unfold handleCalibrationData, REQUIRED_CALIBRATION_SAMPLES. cbn zeta.
  cbn [calibrationSamples setMeasurementCountRef].
  rewrite length_app, Nat.add_comm. cbn [List.length Nat.add].
  assert (E10 : INR 10 = 10) by (simpl; lra). rewrite E10.
  destruct (10 <=? _)%nat; reflexivity.
Qed.

(** X4: the calibration progress shown is ten percent per buffered sample
    and never leaves the range from 0 to 100: in a session that has just
    entered calibration it is [10 * k] after the [k]-th of the ten samples,
    and from any buffer, however long, a further sample leaves it between 0
    and 100. *)
Theorem calibration_progress_in_percent (st st0 : State) (ds : list Delivery)
    (d : Delivery) (now : string) :
  mode st = calibrating -> calibrationSamples st = [] ->
  (List.length ds < 10)%nat ->
  calibrationProgress (run st (sample_events (ds ++ [d]))) =
    10 * INR (List.length ds + 1) /\
  0 <= calibrationProgress (handleCalibrationData now (payload d) st0) <= 100.
Proof.
  intros Hm Hs Hlen. split.
  - unfold sample_events. rewrite map_app, run_app. fold (sample_events ds).
    destruct (calibrating_run ds st Hm) as (I1 & I2 & _).
    { rewrite Hs. simpl. lia. }
    remember (run st (sample_events ds)) as st1 eqn:E1.
    change (run st1 (map sample_event [d])) with (step st1 (sample_event d)).
    rewrite (step_sample_calibrating st1 d I1), handleCalibrationData_progress.
    cbn [calibrationSamples setLastParsedData setLastRawData].
    rewrite I2, Hs. simpl app. rewrite buffer_from_length.
    replace (S (List.length ds)) with (List.length ds + 1)%nat by lia.
    assert (Hle : INR (List.length ds + 1) <= 10).
    { assert (E10 : INR 10 = 10) by (simpl; lra).
      rewrite <- E10. apply le_INR. lia. }
    rewrite Rmin_left; lra.
  - rewrite handleCalibrationData_progress.
    pose proof (pos_INR (S (List.length (calibrationSamples st0)))) as Hp.
    split.
    + apply Rmin_glb; lra.
    + apply Rmin_r.
Qed.


(** ** Mode transitions *)

(** X6: how the mode can change in one event.  [tracking] is entered only
    from [calibrating], by a parsed sample that brings the buffer to ten or
    more; [calibrating] only by the last stretch of [connectBLE];
    [connecting] only by its first stretch; and the mode falls back to
    [idle] only on a failed connection, a disconnection or the end of
    [stopTracking]. *)
Theorem mode_changes_only_by (st : State) (ev : string * Event) :
  mode (step st ev) <> mode st ->
  match mode (step st ev) with
  | tracking =>
      mode st = calibrating /\
      (9 <= List.length (calibrationSamples st))%nat /\
      exists raw data, snd ev = Motion (Value raw (Payload data))
  | calibrating => exists audio, snd ev = ConnectReady audio
  | connecting => snd ev = ConnectStart
  | idle =>
      (exists message, snd ev = ConnectFailed message) \/
      snd ev = Disconnect \/
      (exists audio, snd ev = StopFinish audio \/ snd ev = Stop audio)
  end.
Proof.
  destruct ev as [now e]. cbn [snd].
  assert (Hbeep : forall t a f s, mode (playBeep t a f s) = mode s)
    by (intros t a f s; destruct a; reflexivity).
  assert (Hend : forall seen t s, mode (endOfSession seen t s) = mode s).
  { intros seen t s. unfold endOfSession, calculateFinalStats.
    destruct (seen_measurements seen) as [| m ms]; [reflexivity |].
    destruct (detectSquatPhases (m :: ms)); reflexivity. }
  destruct e as [| | | | audio | message | event | | | audio | audio];
    unfold step; cbn [fst snd].
  - intros _. simpl. reflexivity.
  - intros H. elim H. reflexivity.
  - intros H. elim H. reflexivity.
  - intros H. elim H. reflexivity.
  - intros _. unfold connectBLE_ready. rewrite Hbeep. simpl. now exists audio.
  - intros _. simpl. left. now exists message.
  - unfold handleMotionData.
    destruct event as [| raw [message | data]];
      try (intros H; elim H; reflexivity).
    cbn [mode setLastRawData setLastParsedData].
    destruct (mode st) eqn:Em; try (intros H; elim H; exact Em).
    set (s0 := setLastParsedData _ _).
    destruct (handleCalibrationData_effect now data s0)
      as (_ & _ & _ & _ & Hif).
    change (calibrationSamples s0) with (calibrationSamples st) in Hif.
    change (mode s0) with (mode st) in Hif.
    rewrite length_app in Hif. simpl List.length in Hif.
    destruct (Nat.leb_spec 10 (List.length (calibrationSamples st) + 1))
      as [Hge | Hlt].
    + destruct Hif as (-> & _). intros _.
      split; [reflexivity |]. split; [lia |]. now exists raw, data.
    + destruct Hif as (-> & _). intros H. elim H. exact Em.
  - intros _. simpl. right. now left.
  - intros H. elim H. reflexivity.
  - intros _. unfold stopTracking_finish. rewrite Hbeep. simpl.
    right. right. exists audio. now left.
  - intros _. unfold stopTracking, stopTracking_finish. rewrite Hbeep. simpl.
    right. right. exists audio. now right.
Qed.

(** ** The timeline while tracking *)

Lemma timeline_from_increasing (cal : Calibration.t) (count : nat)
    (ds : list Delivery) (i j : nat) :
  (i < j)%nat -> (j < List.length ds)%nat ->
  t_at (timeline_from cal count ds) i < t_at (timeline_from cal count ds) j.
Proof.
  intros Hij Hj. unfold t_at.
  pose (d0 := mkDelivery EmptyString EmptyString (Data.mk 0 0 0)).
  rewrite (timeline_from_nth cal ds count i d0) by lia.
  rewrite (timeline_from_nth cal ds count j d0) by lia.
  unfold deviation, SAMPLE_PERIOD. cbn [Measurement.timestamp].
  assert (INR (count + i) < INR (count + j)) by (apply lt_INR; lia).
  lra.
Qed.

(** X7: while tracking the timeline is append-only.  Whatever it holds,
    a run of samples leaves it as a prefix, adds one measurement per
    sample, and the added measurements carry strictly increasing time
    stamps, the first one that of the counter. *)
Theorem tracking_only_appends (st : State) (ds : list Delivery) :
  mode st = tracking ->
  exists added : list Measurement.t,
    measurements (run st (sample_events ds)) = measurements st ++ added /\
    List.length added = List.length ds /\
    (forall i j, (i < j)%nat -> (j < List.length ds)%nat ->
                 t_at added i < t_at added j) /\
    (ds <> [] -> t_at added 0 = INR (measurementCountRef st) * SAMPLE_PERIOD).
Proof.
  intros Hm. destruct (tracking_run ds st Hm) as (_ & T & _).
  exists (timeline_from (seen_calibration (listenerRender st))
                        (measurementCountRef st) ds).
  split; [exact T |]. split; [apply timeline_from_length |].
  split; [intros i j; apply timeline_from_increasing |].
  intros Hne. destruct ds as [| d ds]; [congruence | reflexivity].
Qed.

(** ** What the analysis reads *)

Lemma fold_left_pointwise {A B : Type} (f g : A -> B -> A) (l : list B) :
  (forall a b, In b l -> f a b = g a b) ->
  forall a, fold_left f l a = fold_left g l a.
Proof.
  induction l as [| b l IH]; intros H a; [reflexivity |].
  simpl. rewrite (H a b) by now left.
  apply IH. intros a' b' Hb. apply H. now right.
Qed.

Lemma at_index_axes (data : list Measurement.t) (i : nat) :
  Measurement.x (at_index data i) = nth i (map Measurement.x data) 0 /\
  Measurement.z (at_index data i) = nth i (map Measurement.z data) 0 /\
  Measurement.timestamp (at_index data i) =
    nth i (map Measurement.timestamp data) 0.
Proof.
  unfold at_index. repeat split.
  - exact (eq_sym (map_nth Measurement.x data (Measurement.mk 0 0 0 0) i)).
  - exact (eq_sym (map_nth Measurement.z data (Measurement.mk 0 0 0 0) i)).
  - exact (eq_sym (map_nth Measurement.timestamp data
                           (Measurement.mk 0 0 0 0) i)).
Qed.

Lemma stats_fold_map (ms : list Measurement.t) (acc : R * R) :
  fold_left stats_body ms acc =
  fold_left (fun a h => (Rmax (fst a) h, snd a + h))
            (map horizontalDeviation ms) acc.
Proof.
  revert acc. induction ms as [| m ms IH]; intros acc; [reflexivity |].
  simpl. apply IH.
Qed.

Lemma horizontalDeviation_axes (l1 l2 : list Measurement.t) :
  map Measurement.x l1 = map Measurement.x l2 ->
  map Measurement.z l1 = map Measurement.z l2 ->
  map horizontalDeviation l1 = map horizontalDeviation l2.
Proof.
  revert l2. induction l1 as [| m1 l1 IH]; intros [| m2 l2] Hx Hz;
    try discriminate; [reflexivity |].
  simpl in Hx, Hz. injection Hx as Hx1 Hx2. injection Hz as Hz1 Hz2.
  simpl. unfold horizontalDeviation at 1 3. rewrite Hx1, Hz1.
  f_equal. now apply IH.
Qed.

(** X8: the analysis at the end of a session never reads the up-down axis.
    Two timelines with the same [z] values and time stamps have the same
    squat phases, whatever their [x] and [y]; two timelines with the same
    [x] and [z] values and time stamps get the same statistics and the same
    log line, whatever their [y]. *)
Theorem analysis_ignores_other_axes (seen1 seen2 : Render) (now : string)
    (st : State) :
  map Measurement.z (seen_measurements seen1) =
    map Measurement.z (seen_measurements seen2) ->
  map Measurement.timestamp (seen_measurements seen1) =
    map Measurement.timestamp (seen_measurements seen2) ->
  detectSquatPhases (seen_measurements seen1) =
    detectSquatPhases (seen_measurements seen2) /\
  (map Measurement.x (seen_measurements seen1) =
     map Measurement.x (seen_measurements seen2) ->
   calculateFinalStats seen1 now st = calculateFinalStats seen2 now st /\
   endOfSession seen1 now st = endOfSession seen2 now st).
Proof.
  intros Hz Ht. unfold endOfSession, calculateFinalStats.
  remember (seen_measurements seen1) as d1 eqn:E1.
  remember (seen_measurements seen2) as d2 eqn:E2.
  clear E1 E2.
  assert (Hlen : List.length d1 = List.length d2).
  { rewrite <- (length_map Measurement.z d1), Hz. apply length_map. }
  assert (Hdet : detectSquatPhases d1 = detectSquatPhases d2).
  { unfold detectSquatPhases. rewrite Hlen.
    destruct (List.length d2 <? 3)%nat; [reflexivity |].
    rewrite (fold_left_pointwise (detect_body d1) (detect_body d2));
      [reflexivity |].
    intros acc i _. unfold detect_body.
    destruct (at_index_axes d1 i) as (_ & -> & ->).
    destruct (at_index_axes d1 (i - 1)) as (_ & -> & _).
    destruct (at_index_axes d1 (i + 1)) as (_ & -> & _).
    destruct (at_index_axes d2 i) as (_ & -> & ->).
    destruct (at_index_axes d2 (i - 1)) as (_ & -> & _).
    destruct (at_index_axes d2 (i + 1)) as (_ & -> & _).
    rewrite Hz, Ht. reflexivity. }
  split; [exact Hdet |]. intros Hx.
  pose proof (horizontalDeviation_axes d1 d2 Hx Hz) as Hh.
  rewrite Hdet.
  destruct d1 as [| m1 l1], d2 as [| m2 l2]; try discriminate Hlen;
    [split; reflexivity |].
  cbn zeta. rewrite !stats_fold_map, Hh, Hlen.
  destruct (at_index_axes (m1 :: l1) (List.length (m2 :: l2) - 1))
    as (_ & _ & ->).
  destruct (at_index_axes (m2 :: l2) (List.length (m2 :: l2) - 1))
    as (_ & _ & ->).
  rewrite Ht. split; reflexivity.
Qed.


Lemma calculateFinalStats_stored (seen : Render) (now : string) (st : State) :
  seen_measurements seen <> [] ->
  let ms := seen_measurements seen in
  let acc := fold_left stats_body ms (0, 0) in
  finalStats (calculateFinalStats seen now st) =
    Some (mkStats (fixed (fst acc) 2)
                  (fixed (snd acc / INR (List.length ms)) 2)
                  (fixed (t_at ms (List.length ms - 1)) 2)
                  (List.length ms)).
Proof.
  intros Hne. unfold calculateFinalStats.
  destruct (seen_measurements seen) as [| m ms']; [congruence | reflexivity].
Qed.


(** X10: for the timelines the component records, the truthiness test of
    the view agrees with the result of the detection: an interior
    measurement is stamped after the first one, so its time stamp is not
    [0] and a detected bottom is always drawn. *)
Theorem detected_bottom_is_drawn (cal : Calibration.t) (count : nat)
    (ts : list Delivery) (phases : SquatPhases) :
  detectSquatPhases (timeline_from cal count ts) = Some phases ->
  (bottomShown phases = true <-> bottomPoint phases <> None) /\
  (forall t, bottomPoint phases = Some t -> 0 < t).
Proof.
  intros Hres.
  set (tl := timeline_from cal count ts) in *.
  assert (Hlen : (3 <= List.length tl)%nat).
  { destruct (Nat.lt_ge_cases (List.length tl) 3) as [Hlt | Hge]; [| exact Hge].
    rewrite (detectSquatPhases_short tl Hlt) in Hres. discriminate Hres. }
  assert (Hpos : forall t, bottomPoint phases = Some t -> 0 < t).
  { intros t Ht.
    destruct (detectSquatPhases_cases tl Hlen)
      as [[Hnone _] | (j & (Hc & _) & _ & Hsome)].
    - rewrite Hnone in Hres. injection Hres as <-. discriminate Ht.
    - rewrite Hsome in Hres. injection Hres as <-. simpl in Ht.
      injection Ht as <-. destruct Hc as (Hj1 & Hj2 & _).
      unfold tl in Hj2. rewrite timeline_from_length in Hj2.
      unfold t_at, tl.
      rewrite (timeline_from_nth cal ts count j
                 (mkDelivery EmptyString EmptyString (Data.mk 0 0 0)))
        by lia.
      unfold deviation, SAMPLE_PERIOD. cbn [Measurement.timestamp].
      assert (0 < INR (count + j)) by (apply lt_0_INR; lia). lra. }
  split; [| exact Hpos].
  unfold bottomShown. destruct (bottomPoint phases) as [t |].
  - specialize (Hpos t eq_refl).
    destruct (Req_dec_T t 0) as [E | _]; [lra |].
    split; [discriminate | reflexivity].
  - split; [discriminate | intros H; elim H; reflexivity].
Qed.

(** ** Sessions that end by a disconnection or a stop *)

Lemma step_motion_keeps_results (st : State) (now : string) (n : Notification) :
  finalStats (step st (now, Motion n)) = finalStats st /\
  squatPhases (step st (now, Motion n)) = squatPhases st.
Proof.
  unfold step, handleMotionData. cbn [fst snd].
  destruct n as [| raw [message | data]]; try (split; reflexivity).
  cbn [mode setLastRawData setLastParsedData].
  destruct (mode st); try (split; reflexivity).
  unfold handleCalibrationData, REQUIRED_CALIBRATION_SAMPLES. cbn zeta.
  destruct (10 <=? _)%nat; split; reflexivity.
Qed.

Lemma run_samples_keep_results (ds : list Delivery) (st : State) :
  finalStats (run st (sample_events ds)) = finalStats st /\
  squatPhases (run st (sample_events ds)) = squatPhases st.
Proof.
  revert st. induction ds as [| d ds IH]; intros st; [split; reflexivity |].
  simpl. destruct (IH (step st (sample_event d))) as (-> & ->).
  apply step_motion_keeps_results.
Qed.

Lemma calculateFinalStats_of_stats (seen : Render) (now1 now2 : string)
    (s1 s2 : State) :
  finalStats s1 = finalStats s2 ->
  finalStats (calculateFinalStats seen now1 s1) =
  finalStats (calculateFinalStats seen now2 s2).
Proof.
  intros H. unfold calculateFinalStats.
  destruct (seen_measurements seen); [exact H | reflexivity].
Qed.

Lemma endOfSession_stats (seen : Render) (now : string) (st : State) :
  finalStats (endOfSession seen now st) =
  finalStats (calculateFinalStats seen now st).
Proof.
  unfold endOfSession.
  destruct (seen_measurements seen) as [| m ms] eqn:E.
  - unfold calculateFinalStats. rewrite E. reflexivity.
  - destruct (detectSquatPhases (m :: ms)); reflexivity.
Qed.

(** X11: when the device disconnects, the listener finalises the timeline of
    the render in which [connectBLE] was called, not the one just recorded.
    After connecting from a state [st0], ten calibration samples and any
    tracking samples, a disconnection leaves the mode [idle], the error
    "Device disconnected" and the recorded timeline, with the statistics
    and squat phases of the timeline that [st0] held; when that one was
    empty, as on a fresh mount, the results stay what they were. *)
Theorem disconnect_finalises_the_earlier_timeline (st0 : State)
    (now1 now2 now3 : string) (audio : option string)
    (cs ts : list Delivery) :
  List.length cs = 10%nat ->
  let st :=
    run st0 ([(now1, ConnectStart); (now2, ConnectReady audio)]
               ++ sample_events cs ++ sample_events ts
               ++ [(now3, Disconnect)]) in
  mode st = idle /\
  error st = Some "Device disconnected"%string /\
  List.length (measurements st) = List.length ts /\
  finalStats st = finalStats (calculateFinalStats (render_of st0) now3 st0) /\
  squatPhases st =
    match detectSquatPhases (measurements st0) with
    | Some phases => phases
    | None => squatPhases st0
    end /\
  (measurements st0 = [] ->
   finalStats st = finalStats st0 /\ squatPhases st = squatPhases st0).
Proof.
  intros Hlen. cbn zeta. rewrite !run_app.
  change (run st0 [(now1, ConnectStart); (now2, ConnectReady audio)])
    with (connectBLE_ready now2 audio (connectBLE_start now1 st0)).
  destruct (connectBLE_fresh now1 now2 audio st0) as (Hm & Hs & Hc).
  destruct (connectBLE_listeners now1 now2 audio st0) as (Hl & _ & _ & Hq).
  assert (Hf : finalStats (connectBLE_ready now2 audio
                             (connectBLE_start now1 st0)) = finalStats st0)
    by (destruct audio; reflexivity).
  remember (connectBLE_ready now2 audio (connectBLE_start now1 st0)) as st1
    eqn:E1.
  destruct (calibration_completes cs st1 Hm) as (C1 & _ & _ & C4 & _ & _ & C7).
  { rewrite Hs, Hlen. reflexivity. }
  { intros ->. discriminate Hlen. }
  destruct (run_samples_keep_results cs st1) as (F2 & Q2).
  remember (run st1 (sample_events cs)) as st2 eqn:E2.
  destruct (tracking_run ts st2 C1) as (_ & T2 & _ & _ & _ & _ & T7).
  destruct (run_samples_keep_results ts st2) as (F3 & Q3).
  remember (run st2 (sample_events ts)) as st3 eqn:E3.
  change (run st3 [(now3, Disconnect)])
    with (handleDisconnect (listenerRender st3) now3 st3).
  rewrite T7, C7, Hl.
  destruct (handleDisconnect_phases (render_of st0) now3 st3) as (M & _ & Q).
  change (seen_measurements (render_of st0)) with (measurements st0) in Q.
  assert (F : finalStats (handleDisconnect (render_of st0) now3 st3) =
              finalStats (calculateFinalStats (render_of st0) now3 st0)).
  { unfold handleDisconnect. cbn [finalStats setError setMode].
    rewrite endOfSession_stats.
    apply calculateFinalStats_of_stats.
    cbn [finalStats addDebugMessage setDebugMessages].
    rewrite F3, F2, Hf. reflexivity. }
  rewrite Q3, Q2, Hq in Q.
  split; [reflexivity |]. split; [reflexivity |].
  split; [rewrite M, T2, C4; apply timeline_from_length |].
  split; [exact F |]. split; [exact Q |].
  intros Hempty. rewrite F, Q. unfold calculateFinalStats, render_of.
  cbn [seen_measurements]. rewrite Hempty. split; reflexivity.
Qed.

(** X12: a session that is stopped after at least one tracking sample ends
    in [idle] with the statistics of its own timeline: [samples] is the
    number of tracking samples, and [duration] is the time stamp of the last
    one, which counts the ten calibration samples as well. *)
Theorem stopped_session_reports_its_timeline (st0 : State) (now : string)
    (cs ts : list Delivery) :
  List.length cs = 10%nat -> ts <> [] ->
  let st := run st0 (session now cs ts) in
  mode st = idle /\
  List.length (measurements st) = List.length ts /\
  exists stats : Stats,
    finalStats st = Some stats /\
    samples stats = List.length ts /\
    duration stats = fixed (INR (9 + List.length ts) * SAMPLE_PERIOD) 2.
Proof.
  intros Hlen Hne. unfold session. cbn zeta. rewrite !run_app.
  change (run st0 [(now, ConnectStart); (now, ConnectReady None)])
    with (connectBLE_ready now None (connectBLE_start now st0)).
  destruct (connectBLE_fresh now now None st0) as (Hm & Hs & Hc).
  remember (connectBLE_ready now None (connectBLE_start now st0)) as st1
    eqn:E1.
  destruct (calibration_completes cs st1 Hm) as (C1 & _ & C3 & C4 & _).
  { rewrite Hs, Hlen. reflexivity. }
  { intros ->. discriminate Hlen. }
  remember (run st1 (sample_events cs)) as st2 eqn:E2.
  rewrite Hc, Hlen in C3. simpl Nat.add in C3.
  destruct (tracking_run ts st2 C1) as (_ & T2 & _).
  remember (run st2 (sample_events ts)) as st3 eqn:E3.
  rewrite C3, C4 in T2. simpl app in T2.
  change (run st3 [(now, StopStart); (now, Disconnect); (now, StopFinish None)])
    with (step (step (step st3 (now, StopStart)) (now, Disconnect))
               (now, StopFinish None)).
  unfold step. cbn [fst snd].
  remember (stopTracking_start now st3) as st4 eqn:E4.
  assert (R4 : stopRender st4 = render_of st3) by (rewrite E4; reflexivity).
  destruct (handleDisconnect_phases (listenerRender st4) now st4)
    as (M5 & R5 & _).
  remember (handleDisconnect (listenerRender st4) now st4) as st5 eqn:E5.
  rewrite R5, R4.
  assert (M4 : measurements st4 = measurements st3) by (rewrite E4; reflexivity).
  remember (timeline_from (seen_calibration (listenerRender st2)) 10 ts)
    as tl eqn:Etl.
  assert (Ltl : List.length tl = List.length ts)
    by (rewrite Etl; apply timeline_from_length).
  assert (Hseen : seen_measurements (render_of st3) = tl) by exact T2.
  assert (Hnz : seen_measurements (render_of st3) <> []).
  { rewrite Hseen. intros E. rewrite E in Ltl. destruct ts; [congruence |].
    discriminate Ltl. }
  pose proof (calculateFinalStats_stored (render_of st3) now st5 Hnz) as Hst.
  cbn zeta in Hst. rewrite Hseen in Hst.
  unfold stopTracking_finish, playBeep.
  cbn [mode setMode measurements finalStats].
  split; [reflexivity |].
  destruct (endOfSession_phases (render_of st3) now st5) as (M6 & _).
  split; [rewrite M6, M5, M4, T2; exact Ltl |].
  rewrite endOfSession_stats, Hst. eexists. split; [reflexivity |].
  cbn [samples duration]. split; [exact Ltl |].
  f_equal. rewrite Ltl, Etl.
  destruct ts as [| d ts']; [congruence |].
  unfold t_at.
  rewrite (timeline_from_nth _ (d :: ts') 10 _ d) by (simpl; lia).
  unfold deviation. cbn [Measurement.timestamp]. do 2 f_equal. simpl. lia.
Qed.

(** X13: a connection that fails, at whichever stretch of [connectBLE],
    falls back to [idle] with the failure in [error], an empty calibration
    buffer and the counter at zero, and leaves the timeline, the baseline
    and the results of the last session in place. *)
Theorem failed_connection_keeps_last_results (st : State)
    (now1 now2 message : string) (evs : list (string * Event)) :
  forallb (fun ev => connect_progress (snd ev)) evs = true ->
  let st' :=
    run st ((now1, ConnectStart) :: evs ++ [(now2, ConnectFailed message)]) in
  mode st' = idle /\
  error st' = Some ("Connection failed: " ++ message)%string /\
  calibrationSamples st' = [] /\ measurementCountRef st' = 0%nat /\
  measurements st' = measurements st /\ calibration st' = calibration st /\
  finalStats st' = finalStats st /\ squatPhases st' = squatPhases st.
Proof.
  intros Hevs. cbn zeta.
  change (run st ((now1, ConnectStart) :: evs ++ [(now2, ConnectFailed message)]))
    with (run (connectBLE_start now1 st)
              (evs ++ [(now2, ConnectFailed message)])).
  assert (H0 : calibrationSamples (connectBLE_start now1 st) = [] /\
               measurementCountRef (connectBLE_start now1 st) = 0%nat /\
               measurements (connectBLE_start now1 st) = measurements st /\
               calibration (connectBLE_start now1 st) = calibration st /\
               finalStats (connectBLE_start now1 st) = finalStats st /\
               squatPhases (connectBLE_start now1 st) = squatPhases st)
    by (repeat split).
  revert H0. generalize (connectBLE_start now1 st). intros s H0.
  revert s H0. induction evs as [| [t e] evs IH]; intros s H0.
  - simpl. destruct H0 as (A & B & C & D & E & F).
    repeat split; assumption.
  - simpl in Hevs. apply andb_true_iff in Hevs. destruct Hevs as (He & Hevs).
    simpl. apply (IH Hevs).
    destruct e; try discriminate He; exact H0.
Qed.

End Tracker.

(** ** The theorems at concrete inputs *)

Lemma calibration_baseline_is_mean_witness :
  (mode connected = calibrating /\ calibrationSamples connected = [] /\
   List.length ten_readings = 10%nat) /\
  calibration (run no_exponent connected (sample_events ten_readings)) =
    Calibration.mk
      (mean (map (fun d => Data.x (payload d)) ten_readings))
      (mean (map (fun d => Data.y (payload d)) ten_readings))
      (mean (map (fun d => Data.z (payload d)) ten_readings)).
Proof.
  split; [repeat split |].
  apply (calibration_baseline_is_mean no_exponent connected connected
           ten_readings ten_readings); reflexivity.
Defined.

Lemma calibration_count_and_transition_witness :
  (mode connected = calibrating /\ calibrationSamples connected = [] /\
   (List.length ten_readings <= 10)%nat) /\
  mode (run no_exponent connected (sample_events ten_readings)) = tracking /\
  measurements (run no_exponent connected (sample_events ten_readings)) = [].
Proof.
  assert (Hlen : (List.length ten_readings <= 10)%nat) by (simpl; lia).
  split; [split; [reflexivity | split; [reflexivity | exact Hlen]] |].
  destruct (calibration_count_and_transition no_exponent connected connected
              at_rest ten_readings eq_refl eq_refl eq_refl Hlen)
    as (_ & _ & _ & H).
  exact (H eq_refl).
Defined.

(** Ten calibration samples and one tracking sample after connecting: the
    first measurement of the timeline is stamped [10 * 0.05], half a
    second. *)
Lemma tracking_timestamps_start_after_calibration_witness :
  (fresh_calibrating connected /\ List.length ten_readings = 10%nat) /\
  t_at (measurements
          (run no_exponent
             (run no_exponent connected (sample_events ten_readings))
             (sample_events [at_rest]))) 0
  = 1 / 2.
Proof.
  assert (Hfresh : fresh_calibrating connected) by (repeat split).
  split; [split; [exact Hfresh | reflexivity] |].
  destruct (tracking_timestamps_start_after_calibration no_exponent connected
              ten_readings [at_rest] Hfresh eq_refl) as (_ & _ & _ & H).
  destruct (H 0%nat (Nat.lt_0_succ 0)) as (H0 & _).
  rewrite H0. unfold SAMPLE_PERIOD. simpl. lra.
Defined.

(** Mount, connect, ten calibration samples [{1, 2, 3}], then the sample
    [{4, 5, 6}]: the stored baseline is [{1, 2, 3}] and the measurement is
    [{4, 5, 6}]. *)
Lemma tracking_deviation_uses_listener_calibration_witness :
  List.length ten_123 = 10%nat /\
  calibration
    (run no_exponent initialState
         ([(noon, ConnectStart); (noon, ConnectReady None)]
            ++ sample_events ten_123)) = Calibration.mk 1 2 3 /\
  exists m : Measurement.t,
    measurements
      (step no_exponent
         (run no_exponent initialState
              ([(noon, ConnectStart); (noon, ConnectReady None)]
                 ++ sample_events ten_123))
         (sample_event reading_456)) = [m] /\
    Measurement.x m = 4 /\ Measurement.y m = 5 /\ Measurement.z m = 6.
Proof.
  destruct (tracking_deviation_uses_listener_calibration no_exponent
              initialState noon noon None ten_123 reading_456 eq_refl)
    as (_ & Hcal & (m & Hm & Hx & Hy & Hz) & _).
  split; [reflexivity |]. split.
  - rewrite Hcal. unfold baseline_of, mean, Rsum. simpl. f_equal; lra.
  - exists m. split; [exact Hm |]. rewrite Hx, Hy, Hz. simpl.
    repeat split; lra.
Defined.

Lemma final_stats_of_timeline_witness :
  seen_measurements two_seen <> [] /\
  finalStats (calculateFinalStats no_exponent two_seen noon initialState) =
    Some (mkStats "5.00" "2.50" (fixed no_exponent (5 / 100) 2) 2).
Proof.
  assert (Hne : seen_measurements two_seen <> []) by discriminate.
  split; [exact Hne |].
  destruct (final_stats_of_timeline no_exponent two_seen noon initialState Hne)
    as [_ H].
  exact (H 0 0 0 (5 / 100) eq_refl).
Defined.

Lemma final_stats_empty_timeline_witness :
  seen_measurements (render_of initialState) = [] /\
  calculateFinalStats no_exponent (render_of initialState) noon initialState
    = initialState /\
  finalStats (stopTracking no_exponent noon None initialState) = None.
Proof.
  split; [reflexivity |].
  destruct (final_stats_empty_timeline no_exponent (render_of initialState)
              noon None initialState eq_refl) as (H1 & _ & _ & H4).
  split; [exact H1 | exact (H4 eq_refl)].
Defined.

Lemma squat_bottom_is_first_deepest_witness :
  (3 <= List.length squat_example)%nat /\
  detectSquatPhases squat_example =
    Some (mkSquatPhases (Some (10 / 100)) (-5)).
Proof.
  assert (Hlen : (3 <= List.length squat_example)%nat) by (simpl; lia).
  split; [exact Hlen |].
  destruct (squat_bottom_is_first_deepest squat_example 2 Hlen)
    as (_ & _ & _ & H).
  apply H; reflexivity.
Defined.

Lemma zero_dip_only_candidate (i : nat) : candidate zero_dip i -> i = 1%nat.
Proof. intros (H1 & H2 & _). simpl in H2. lia. Qed.

(** C4 as stated fails on [zero_dip]: index 1 is a candidate, the only one
    and so the first of largest magnitude, yet its time stamp is not
    returned. *)
Lemma zero_dip_is_not_the_bottom :
  deepest_first zero_dip 1 /\
  detectSquatPhases zero_dip = Some (mkSquatPhases None 0) /\
  detectSquatPhases zero_dip <>
    Some (mkSquatPhases (Some (t_at zero_dip 1)) (z_at zero_dip 1)).
Proof.
  assert (Hc : candidate zero_dip 1).
  { unfold candidate, z_at. simpl. repeat split; (lia || lra). }
  assert (Hres : detectSquatPhases zero_dip = Some (mkSquatPhases None 0)).
  { destruct (detectSquatPhases_cases zero_dip) as [[H _] | (j & (Hj & _) & Hnz & _)];
      [simpl; lia | exact H |].
    rewrite (zero_dip_only_candidate j Hj) in Hnz. elim Hnz. reflexivity. }
  split; [| split; [exact Hres |]].
  - split; [exact Hc |].
    split; intros i Hi; rewrite (zero_dip_only_candidate i Hi); [lra | lia].
  - rewrite Hres. discriminate.
Qed.

Lemma squat_bottom_none_iff_depth_zero_witness :
  (3 <= List.length rising)%nat /\
  detectSquatPhases rising = Some (mkSquatPhases None 0).
Proof.
  assert (Hlen : (3 <= List.length rising)%nat) by (simpl; lia).
  split; [exact Hlen |].
  destruct (squat_bottom_none_iff_depth_zero rising Hlen)
    as (r & Hr & _ & _ & Hup & _).
  rewrite Hr. f_equal. apply Hup.
  intros i Hi. simpl in Hi.
  destruct i as [| [| i]]; [| | lia]; unfold z_at; simpl; lra.
Defined.

Lemma short_timeline_keeps_stored_phases_witness :
  (List.length (seen_measurements two_seen) < 3)%nat /\
  detectSquatPhases (seen_measurements two_seen) = None /\
  squatPhases (stopTracking_finish no_exponent two_seen noon None initialState)
    = mkSquatPhases None 0.
Proof.
  assert (Hlen : (List.length (seen_measurements two_seen) < 3)%nat)
    by (simpl; lia).
  split; [exact Hlen |].
  destruct (short_timeline_keeps_stored_phases no_exponent two_seen noon None
              initialState Hlen) as (H1 & _ & _ & H4 & _).
  split; [exact H1 | apply H4; reflexivity].
Defined.

(** C7 as stated fails after an earlier session: the second session ends
    with two measurements, and the stored phases are those of the first. *)
Lemma short_session_shows_earlier_bottom :
  List.length
    (measurements
       (run no_exponent (run no_exponent initialState squat_session)
            short_session)) = 2%nat /\
  squatPhases
    (run no_exponent (run no_exponent initialState squat_session)
         short_session)
  = squatPhases (run no_exponent initialState squat_session) /\
  squatPhases
    (run no_exponent (run no_exponent initialState squat_session)
         short_session)
  <> mkSquatPhases None 0.
Proof.
  destruct (session_outcome no_exponent initialState noon (repeat at_rest 10)
              [leaning "0" 0; leaning "-5" (-5); leaning "0" 0] eq_refl)
    as (M1 & Q1 & _).
  fold squat_session in M1, Q1.
  remember (run no_exponent initialState squat_session) as st1 eqn:E1.
  destruct (session_outcome no_exponent st1 noon (repeat at_rest 10)
              [leaning "0" 0; leaning "-5" (-5)] eq_refl) as (M2 & _ & Q2 & _).
  fold short_session in M2, Q2.
  remember (run no_exponent st1 short_session) as st2 eqn:E2.
  assert (Hshort : detectSquatPhases
                     (timeline_from (calibration st1) 10
                        [leaning "0" 0; leaning "-5" (-5)]) = None).
  { apply detectSquatPhases_short. rewrite timeline_from_length. simpl. lia. }
  specialize (Q2 Hshort). rewrite M1 in Q2.
  change (calibration initialState) with (Calibration.mk 0 0 0) in *.
  remember (timeline_from (Calibration.mk 0 0 0) 10
              [leaning "0" 0; leaning "-5" (-5); leaning "0" 0]) as tl eqn:Etl.
  assert (Hz : z_at tl 0 = 0 /\ z_at tl 1 = -5 /\ z_at tl 2 = 0).
  { rewrite Etl. unfold z_at, at_index.
    cbn [timeline_from nth deviation Measurement.z payload leaning Data.z
         Calibration.z].
    repeat split; lra. }
  destruct Hz as (Z0 & Z1 & Z2).
  assert (Hlen : List.length tl = 3%nat)
    by (rewrite Etl, timeline_from_length; reflexivity).
  assert (Hc : candidate tl 1).
  { unfold candidate. rewrite Hlen.
    change (1 - 1)%nat with 0%nat. change (1 + 1)%nat with 2%nat.
    rewrite Z0, Z1, Z2. repeat split; (lia || lra). }
  assert (Hnz : z_at tl 1 <> 0) by (rewrite Z1; lra).
  split; [rewrite M2, timeline_from_length; reflexivity |].
  destruct (detectSquatPhases_cases tl) as [[_ Hzero] | (j & _ & _ & Hres)].
  - rewrite Hlen. lia.
  - elim Hnz. now apply Hzero.
  - rewrite (Q2 _ Hres), (Q1 _ Hres). split; [reflexivity | discriminate].
Qed.

Lemma debug_log_keeps_last_five_witness :
  debugMessages (log_all eight_messages initialState) =
    ["12:00:04 - four"; "12:00:05 - five"; "12:00:06 - six";
     "12:00:07 - seven"; "12:00:08 - eight"]%string.
Proof.
  destruct (debug_log_keeps_last_five eight_messages) as (_ & _ & H & _).
  exact (H _ _ _ _ _ _ _ _ eq_refl).
Defined.

(** ** The further properties at concrete inputs *)

Lemma debug_log_stays_bounded_witness :
  (List.length (debugMessages initialState) <= 5)%nat /\
  (List.length
     (debugMessages (run no_exponent initialState squat_session)) <= 5)%nat.
Proof.
  assert (H0 : (List.length (debugMessages initialState) <= 5)%nat)
    by (simpl; lia).
  split; [exact H0 |].
  destruct (debug_log_stays_bounded no_exponent initialState squat_session
              noon "checked" H0) as (H & _).
  exact H.
Defined.

Lemma notifications_outside_a_session_are_dropped_witness :
  (mode initialState = idle \/ mode initialState = connecting) /\
  session_view
    (run no_exponent initialState (motion_events mixed_notifications))
  = session_view initialState.
Proof.
  assert (H0 : mode initialState = idle \/ mode initialState = connecting)
    by (left; reflexivity).
  split; [exact H0 |].
  exact (notifications_outside_a_session_are_dropped no_exponent initialState
           mixed_notifications H0).
Defined.

Lemma calibration_progress_in_percent_witness :
  (mode connected = calibrating /\ calibrationSamples connected = [] /\
   (List.length (repeat at_rest 3) < 10)%nat) /\
  calibrationProgress
    (run no_exponent connected (sample_events (repeat at_rest 3 ++ [at_rest])))
  = 10 * INR (List.length (repeat at_rest 3) + 1).
Proof.
  assert (Hlen : (List.length (repeat at_rest 3) < 10)%nat) by (simpl; lia).
  split; [split; [reflexivity | split; [reflexivity | exact Hlen]] |].
  destruct (calibration_progress_in_percent no_exponent connected connected
              (repeat at_rest 3) at_rest noon eq_refl eq_refl Hlen) as (H & _).
  exact H.
Defined.


Lemma mode_changes_only_by_witness :
  mode (step no_exponent connected (noon, Disconnect)) <> mode connected /\
  ((exists message, Disconnect = ConnectFailed message) \/
   Disconnect = Disconnect \/
   (exists audio, Disconnect = StopFinish audio \/ Disconnect = Stop audio)).
Proof.
  assert (H0 : mode (step no_exponent connected (noon, Disconnect))
               <> mode connected) by discriminate.
  split; [exact H0 |].
  exact (mode_changes_only_by no_exponent connected (noon, Disconnect) H0).
Defined.

Lemma tracking_only_appends_witness :
  mode tracking_state = tracking /\
  exists added : list Measurement.t,
    measurements
      (run no_exponent tracking_state (sample_events three_leanings))
    = measurements tracking_state ++ added /\
    List.length added = 3%nat.
Proof.
  split; [reflexivity |].
  destruct (tracking_only_appends no_exponent tracking_state three_leanings
              eq_refl) as (added & H1 & H2 & _).
  exists added. split; [exact H1 | exact H2].
Defined.

Lemma analysis_ignores_other_axes_witness :
  (map Measurement.z (seen_measurements two_seen) =
     map Measurement.z (seen_measurements two_seen_tilted) /\
   map Measurement.timestamp (seen_measurements two_seen) =
     map Measurement.timestamp (seen_measurements two_seen_tilted) /\
   map Measurement.x (seen_measurements two_seen) =
     map Measurement.x (seen_measurements two_seen_tilted)) /\
  calculateFinalStats no_exponent two_seen noon initialState =
    calculateFinalStats no_exponent two_seen_tilted noon initialState.
Proof.
  split; [repeat split |].
  destruct (analysis_ignores_other_axes no_exponent two_seen two_seen_tilted
              noon initialState eq_refl eq_refl) as (_ & H).
  destruct (H eq_refl) as (Hs & _). exact Hs.
Defined.


Lemma detected_bottom_is_drawn_witness :
  exists phases : SquatPhases,
    detectSquatPhases
      (timeline_from (Calibration.mk 0 0 0) 10 three_leanings) = Some phases /\
    (bottomShown phases = true <-> bottomPoint phases <> None).
Proof.
  eexists. split; [reflexivity |].
  destruct (detected_bottom_is_drawn (Calibration.mk 0 0 0) 10 three_leanings
              _ eq_refl) as (H & _).
  exact H.
Defined.

Lemma disconnect_finalises_the_earlier_timeline_witness :
  List.length (repeat at_rest 10) = 10%nat /\
  measurements initialState = [] /\
  List.length
    (measurements
       (run no_exponent initialState
          ([(noon, ConnectStart); (noon, ConnectReady None)]
             ++ sample_events (repeat at_rest 10)
             ++ sample_events three_leanings ++ [(noon, Disconnect)])))
  = List.length three_leanings /\
  finalStats
    (run no_exponent initialState
       ([(noon, ConnectStart); (noon, ConnectReady None)]
          ++ sample_events (repeat at_rest 10)
          ++ sample_events three_leanings ++ [(noon, Disconnect)]))
  = finalStats initialState.
Proof.
  split; [reflexivity |]. split; [reflexivity |].
  destruct (disconnect_finalises_the_earlier_timeline no_exponent initialState
              noon noon noon None (repeat at_rest 10) three_leanings eq_refl)
    as (_ & _ & H3 & _ & _ & H6).
  split; [exact H3 |]. destruct (H6 eq_refl) as (H & _). exact H.
Defined.

Lemma stopped_session_reports_its_timeline_witness :
  (List.length (repeat at_rest 10) = 10%nat /\ three_leanings <> []) /\
  exists stats : Stats,
    finalStats
      (run no_exponent initialState
           (session noon (repeat at_rest 10) three_leanings)) = Some stats /\
    samples stats = List.length three_leanings /\
    duration stats =
      fixed no_exponent (INR (9 + List.length three_leanings) * SAMPLE_PERIOD) 2.
Proof.
  assert (Hne : three_leanings <> []) by discriminate.
  split; [split; [reflexivity | exact Hne] |].
  destruct (stopped_session_reports_its_timeline no_exponent initialState noon
              (repeat at_rest 10) three_leanings eq_refl Hne) as (_ & _ & H).
  exact H.
Defined.

Lemma failed_connection_keeps_last_results_witness :
  forallb (fun ev => connect_progress (snd ev))
          [(noon, ConnectSelected); (noon, ConnectConnected)] = true /\
  mode
    (run no_exponent initialState
       ((noon, ConnectStart)
          :: [(noon, ConnectSelected); (noon, ConnectConnected)]
          ++ [(noon, ConnectFailed "GATT operation failed")])) = idle.
Proof.
  split; [reflexivity |].
  destruct (failed_connection_keeps_last_results no_exponent initialState
              noon noon "GATT operation failed"
              [(noon, ConnectSelected); (noon, ConnectConnected)] eq_refl)
    as (H & _).
  exact H.
Defined.
